(** * Bozor ledger: products, sales and daily reports

    A shallow embedding of the in-memory storage engine ([MemStorage],
    server/storage.ts) and of the HTTP handlers that drive it
    (server/routes.ts), with the properties of the ledger stated and
    proved over that embedding. *)

From Stdlib Require Import ZArith QArith Qround Qabs Qpower Lqa.
From stdpp Require Import gmap strings list fin_maps sorting.

Local Open Scope string_scope.
Local Open Scope Z_scope.

(** ** JavaScript numbers

    A decimal column travels as text and is read back with [parseFloat].
    A [number] stands for such a text or for a double: [NaN] for a text
    that is not numeric (or a field that is [undefined]) and for the
    double NaN, [Num q] for the text of the decimal [q] and for the
    finite double of value [q], the infinities for the texts
    "Infinity" and "-Infinity" and for the two infinite doubles.
    [parseFloat] reads a text as the nearest double; every operation
    reads its operands first and rounds its result as binary64 does.
    A double printed by [toString] is kept as the double itself, which
    is what [parseFloat] reads back from the text.  The sign of zero
    is not kept. *)

Inductive number : Type :=
  | NaN
  | Num (q : Q)
  | PosInfinity
  | NegInfinity.

(** *** Rounding to binary64

    The doubles are the numbers [m * 2 ^ e] with [|m| < 2 ^ 53] and
    [-1074 <= e <= 971].  [nearest_double x], for [x > 0], is the
    nearest of them below [2 ^ 1024], the one of even [m] at a tie;
    what would round to [2 ^ 1024] or more is infinite. *)

Definition pow2 (e : Z) : Q := Qpower 2 e.

(** The [k] with [2 ^ k <= x < 2 ^ (k + 1)], for [x > 0]. *)
Definition floor_log2 (x : Q) : Z :=
  let k := Z.log2 (Qnum x) - Z.log2 (Z.pos (Qden x)) in
  if Qle_bool (pow2 k) x then k else k - 1.

Definition round_half_even (y : Q) : Z :=
  let f := Qfloor y in
  match Qcompare (y - inject_Z f) (1 # 2) with
  | Lt => f
  | Gt => f + 1
  | Eq => if Z.even f then f else f + 1
  end.

Definition nearest_double (x : Q) : Q :=
  let e := Z.max (floor_log2 x - 52) (-1074) in
  Qred (inject_Z (round_half_even (x / pow2 e)) * pow2 e).

Definition to_double (x : Q) : number :=
  match Qcompare x 0 with
  | Eq => Num 0
  | Gt =>
      let r := nearest_double x in
      if Qle_bool (pow2 1024) r then PosInfinity else Num r
  | Lt =>
      let r := nearest_double (- x) in
      if Qle_bool (pow2 1024) r then NegInfinity else Num (Qred (- r))
  end.

Definition parseFloat (x : number) : number :=
  match x with
  | Num q => to_double q
  | _ => x
  end.

Definition isNaN (x : number) : bool :=
  match parseFloat x with NaN => true | _ => false end.

Definition isFinite (x : number) : bool :=
  match parseFloat x with Num _ => true | _ => false end.

(** *** Arithmetic and comparison of doubles *)

Definition number_add (x y : number) : number :=
  match parseFloat x, parseFloat y with
  | NaN, _ | _, NaN => NaN
  | Num a, Num b => to_double (a + b)
  | PosInfinity, NegInfinity | NegInfinity, PosInfinity => NaN
  | PosInfinity, _ | _, PosInfinity => PosInfinity
  | NegInfinity, _ | _, NegInfinity => NegInfinity
  end.

Definition number_sub (x y : number) : number :=
  match parseFloat x, parseFloat y with
  | NaN, _ | _, NaN => NaN
  | Num a, Num b => to_double (a - b)
  | PosInfinity, PosInfinity | NegInfinity, NegInfinity => NaN
  | PosInfinity, _ | _, NegInfinity => PosInfinity
  | NegInfinity, _ | _, PosInfinity => NegInfinity
  end.

(** The infinity of the sign of [s * t]. *)
Definition infinity_of_sign (negative : bool) : number :=
  if negative then NegInfinity else PosInfinity.

Definition is_negative (x : number) : bool :=
  match x with
  | Num a => negb (Qle_bool 0 a)
  | NegInfinity => true
  | _ => false
  end.

Definition is_zero (x : number) : bool :=
  match x with
  | Num a => Qeq_bool a 0
  | _ => false
  end.

Definition number_mul (x y : number) : number :=
  match parseFloat x, parseFloat y with
  | NaN, _ | _, NaN => NaN
  | Num a, Num b => to_double (a * b)
  | x', y' =>
      if is_zero x' || is_zero y' then NaN
      else infinity_of_sign (xorb (is_negative x') (is_negative y'))
  end.

Definition number_div (x y : number) : number :=
  match parseFloat x, parseFloat y with
  | NaN, _ | _, NaN => NaN
  | Num a, Num b =>
      if Qeq_bool b 0
      then if Qeq_bool a 0 then NaN
           else infinity_of_sign (negb (Qle_bool 0 a))
      else to_double (a / b)
  | Num _, _ => Num 0
  | x', Num b => infinity_of_sign (xorb (is_negative x') (negb (Qle_bool 0 b)))
  | _, _ => NaN
  end.

(** [x < y] and [x <= y]: false as soon as one side is [NaN]. *)
Definition number_lt (x y : number) : bool :=
  match parseFloat x, parseFloat y with
  | NaN, _ | _, NaN => false
  | Num a, Num b =>
      match Qcompare a b with Lt => true | _ => false end
  | NegInfinity, NegInfinity => false
  | NegInfinity, _ => true
  | _, PosInfinity =>
      match parseFloat x with PosInfinity => false | _ => true end
  | _, _ => false
  end.

Definition number_gt (x y : number) : bool := number_lt y x.

Definition number_le (x y : number) : bool :=
  match parseFloat x, parseFloat y with
  | NaN, _ | _, NaN => false
  | Num a, Num b => Qle_bool a b
  | NegInfinity, _ => true
  | _, PosInfinity => true
  | _, _ => false
  end.

(** [x || 0] on a number: [NaN] and [0] are falsy. *)
Definition or_zero (x : number) : number :=
  match parseFloat x with
  | NaN => Num 0
  | Num a => if Qeq_bool a 0 then Num 0 else Num a
  | x' => x'
  end.

(** Rounding to [d] decimals, halves away from zero: the value of the
    text that [Number.prototype.toFixed] prints for a double below
    [10 ^ 21]; from there on it prints the double as [toString]
    does. *)
Definition round_half_away (x : Q) : Z :=
  if Qle_bool 0 x then Qfloor (x + (1 # 2))
  else - Qfloor ((- x) + (1 # 2)).

Definition roundQ (d : nat) (x : Q) : Q :=
  Qmake (round_half_away (x * inject_Z (10 ^ Z.of_nat d)))
        (Z.to_pos (10 ^ Z.of_nat d)).

Definition toFixed (d : nat) (x : number) : number :=
  match parseFloat x with
  | Num a =>
      if Qle_bool (inject_Z (10 ^ 21)) (Qabs a) then Num a
      else Num (roundQ d a)
  | x' => x'
  end.

(** [Math.max(0, x)]. *)
Definition max_zero (x : number) : number :=
  match parseFloat x with
  | NaN => NaN
  | Num a => if Qle_bool 0 a then Num a else Num 0
  | PosInfinity => PosInfinity
  | NegInfinity => Num 0
  end.

(** Equality of the numbers two texts denote. *)
Definition number_eq (x y : number) : Prop :=
  match x, y with
  | Num a, Num b => (a == b)%Q
  | NaN, NaN => True
  | PosInfinity, PosInfinity => True
  | NegInfinity, NegInfinity => True
  | _, _ => False
  end.

(** *** Doubles

    The finite doubles, the numbers [m * 2 ^ e] that binary64 holds,
    and the order of doubles.  [exponent x] is the exponent at which
    [nearest_double] rounds [x]; the numbers [m * 2 ^ e] with 53 bits
    and no upper bound on [e] are the [representable] ones. *)

Definition exponent (x : Q) : Z := Z.max (floor_log2 x - 52) (-1074).

Definition representable (d : Q) : Prop :=
  ∃ m e : Z, (Z.abs m < 2 ^ 53)%Z ∧ (-1074 <= e)%Z
             ∧ (d == inject_Z m * pow2 e)%Q.

Definition is_double (d : Q) : Prop :=
  ∃ m e : Z, (Z.abs m < 2 ^ 53)%Z ∧ (-1074 <= e <= 971)%Z
             ∧ (d == inject_Z m * pow2 e)%Q.

Definition double_le (x y : number) : Prop :=
  match x, y with
  | NaN, _ | _, NaN => False
  | NegInfinity, _ | _, PosInfinity => True
  | Num a, Num b => (a <= b)%Q
  | _, _ => False
  end.

(** ** Dates

    A [Date] is its [getTime()]: milliseconds since the epoch.  The text
    [d.toISOString().split('T')[0]] (the UTC calendar day, 'YYYY-MM-DD')
    is represented by the number of that day; [===], [>=] and [<=] on
    two such texts are [=], [>=] and [<=] on the day numbers. *)

Definition Date : Type := Z.

Definition msPerDay : Z := 86400000.
Definition msPerHour : Z := 3600000.

Definition toISODate (d : Date) : Z := d / msPerDay.

(** [d.setDate(d.getDate() + n)]: the same local time of day, [n]
    calendar days later, on a host whose offset from UTC is the same
    on both days (no change of daylight-saving time in between). *)
Definition addDays (d : Date) (n : Z) : Date := d + n * msPerDay.

(** [d.getHours()] and [d.getDay()] for a host whose
    [getTimezoneOffset()] is [tzOffset] minutes. *)
Definition getHours (tzOffset : Z) (d : Date) : Z :=
  ((d - tzOffset * 60000) / msPerHour) mod 24.

Definition getDay (tzOffset : Z) (d : Date) : Z :=
  ((d - tzOffset * 60000) / msPerDay + 4) mod 7.

(** The calendar day of [d] on the clock of the host, as the
    specification counts days; the source never computes it. *)
Definition localDay (tzOffset : Z) (d : Date) : Z :=
  (d - tzOffset * 60000) / msPerDay.

(** ** Records of shared/schema.ts *)

Module Product.
Record t : Type := mk {
    id : string;
    name : string;
    purchasePrice : number;
    sellingPrice : number;
    stock : number;
    createdAt : Date
  }.
Definition with_stock (p : t) (s : number) : t :=
    mk (id p) (name p) (purchasePrice p) (sellingPrice p) s (createdAt p).
End Product.

(** [stock] has a column default, so the insert schema leaves it
    optional. *)
Module InsertProduct.
Record t : Type := mk {
    name : string;
    purchasePrice : number;
    sellingPrice : number;
    stock : option number
  }.
End InsertProduct.

Module Sale.
Record t : Type := mk {
    id : string;
    productId : string;
    quantity : number;
    pricePerKg : number;
    totalAmount : number;
    profit : number;
    saleDate : Date
  }.
End Sale.

Module InsertSale.
Record t : Type := mk {
    productId : string;
    quantity : number;
    pricePerKg : number;
    totalAmount : number;
    profit : number
  }.
End InsertSale.

Module DailyReport.
Record t : Type := mk {
    id : string;
    date : Z;
    totalSales : number;
    totalProfit : number;
    totalCost : number;
    isSubmitted : bool;
    submittedAt : option Date
  }.
End DailyReport.

Module InsertDailyReport.
Record t : Type := mk {
    date : Z;
    totalSales : number;
    totalProfit : number;
    totalCost : number;
    isSubmitted : bool
  }.
End InsertDailyReport.

(** [Partial<DailyReport>]: a field is [None] when the object has no
    such property. *)
Module PartialDailyReport.
Record t : Type := mk {
    id : option string;
    date : option Z;
    totalSales : option number;
    totalProfit : option number;
    totalCost : option number;
    isSubmitted : option bool;
    submittedAt : option (option Date)
  }.
Definition with_submittedAt (u : t) (d : option Date) : t :=
    mk (id u) (date u) (totalSales u) (totalProfit u) (totalCost u)
       (isSubmitted u) (Some d).
End PartialDailyReport.

(** [Object.assign(report, updates)]: every property that [updates]
    has replaces the one of [report]. *)
Definition Object_assign (report : DailyReport.t)
    (updates : PartialDailyReport.t) : DailyReport.t :=
  DailyReport.mk
    (default (DailyReport.id report) (PartialDailyReport.id updates))
    (default (DailyReport.date report) (PartialDailyReport.date updates))
    (default (DailyReport.totalSales report)
       (PartialDailyReport.totalSales updates))
    (default (DailyReport.totalProfit report)
       (PartialDailyReport.totalProfit updates))
    (default (DailyReport.totalCost report)
       (PartialDailyReport.totalCost updates))
    (default (DailyReport.isSubmitted report)
       (PartialDailyReport.isSubmitted updates))
    (default (DailyReport.submittedAt report)
       (PartialDailyReport.submittedAt updates)).

Module DashboardStats.
Record t : Type := mk {
    dailyProfit : number;
    dailySales : number;
    dailyCost : number;
    dailyMargin : number;
    weeklyProfit : number;
    productCount : nat
  }.
End DashboardStats.

(** One entry of [WeeklyData]; [day] is the weekday, 0 for Sunday. *)
Module WeeklyEntry.
Record t : Type := mk {
    day : Z;
    profit : number;
    sales : number
  }.
End WeeklyEntry.

(** ** MemStorage

    The three [Map]s of the class.  Reports are keyed by their date. *)

Record MemStorage : Type := mkStorage {
  products : gmap string Product.t;
  sales : gmap string Sale.t;
  dailyReports : gmap Z DailyReport.t
}.

Definition new_MemStorage : MemStorage := mkStorage ∅ ∅ ∅.

Definition set_products (st : MemStorage) (m : gmap string Product.t) :=
  mkStorage m (sales st) (dailyReports st).
Definition set_sales (st : MemStorage) (m : gmap string Sale.t) :=
  mkStorage (products st) m (dailyReports st).
Definition set_dailyReports (st : MemStorage) (m : gmap Z DailyReport.t) :=
  mkStorage (products st) (sales st) m.

(** Every method is [async] and every call site awaits it at once, so a
    method is a function from the store to a result and a store. *)
Definition M (A : Type) : Type := MemStorage → A * MemStorage.

#[export] Instance M_ret : MRet M := λ A a st, (a, st).
#[export] Instance M_bind : MBind M :=
  λ A B k m st, let (a, st') := m st in k a st'.

Definition get_store : M MemStorage := λ st, (st, st).
Definition put_store (st' : MemStorage) : M unit := λ _, (tt, st').

(** [Array.from(map.values())].  A [Map] iterates in the order of
    insertion; the list here comes in the order of the keys.  A sum of
    doubles depends on the order of its terms, so what is stated about
    such a sum is stated for a listing in some order. *)
Definition values {K A} `{Countable K} (m : gmap K A) : list A :=
  (map_to_list m).*2.

(** [todaySales.reduce((sum, sale) => sum + parseFloat(f(sale)), 0)]. *)
Definition sum_of (f : Sale.t → number) (l : list Sale.t) : number :=
  foldl (λ sum sale, number_add sum (f sale)) (Num 0) l.

Definition getProduct (id : string) : M (option Product.t) :=
  λ st, (products st !! id, st).

Definition createProduct (uuid : string) (now : Date)
    (insertProduct : InsertProduct.t) : M Product.t :=
  let product :=
    Product.mk uuid
      (InsertProduct.name insertProduct)
      (InsertProduct.purchasePrice insertProduct)
      (InsertProduct.sellingPrice insertProduct)
      (default NaN (InsertProduct.stock insertProduct))
      now in
  λ st, (product, set_products st (<[uuid := product]> (products st))).

Definition updateProductStock (id : string) (newStock : number) : M unit :=
  λ st,
    match products st !! id with
    | Some product =>
        (tt, set_products st
               (<[id := Product.with_stock product newStock]> (products st)))
    | None => (tt, st)
    end.

Definition getSalesByDate (date : Z) : M (list Sale.t) :=
  λ st,
    (filter (λ sale, toISODate (Sale.saleDate sale) = date)
       (values (sales st)), st).

Definition getSalesByDateRange (startDate endDate : Z) : M (list Sale.t) :=
  λ st,
    (filter (λ sale, startDate ≤ toISODate (Sale.saleDate sale)
                     ∧ toISODate (Sale.saleDate sale) ≤ endDate)
       (values (sales st)), st).

Definition createSale (uuid : string) (now : Date)
    (insertSale : InsertSale.t) : M Sale.t :=
  let sale :=
    Sale.mk uuid
      (InsertSale.productId insertSale)
      (InsertSale.quantity insertSale)
      (InsertSale.pricePerKg insertSale)
      (InsertSale.totalAmount insertSale)
      (InsertSale.profit insertSale)
      now in
  st ← get_store;
  put_store (set_sales st (<[uuid := sale]> (sales st)));;
  product ← getProduct (InsertSale.productId insertSale);
  match product with
  | Some product =>
      let newStock :=
        number_sub (Product.stock product) (InsertSale.quantity insertSale) in
      updateProductStock (InsertSale.productId insertSale) newStock;;
      mret sale
  | None => mret sale
  end.

Definition getDailyReport (date : Z) : M (option DailyReport.t) :=
  λ st, (dailyReports st !! date, st).

Definition createDailyReport (uuid : string) (now : Date)
    (insertReport : InsertDailyReport.t) : M DailyReport.t :=
  let report :=
    DailyReport.mk uuid
      (InsertDailyReport.date insertReport)
      (InsertDailyReport.totalSales insertReport)
      (InsertDailyReport.totalProfit insertReport)
      (InsertDailyReport.totalCost insertReport)
      (InsertDailyReport.isSubmitted insertReport)
      (if InsertDailyReport.isSubmitted insertReport
       then Some now else None) in
  λ st,
    (report,
     set_dailyReports st
       (<[InsertDailyReport.date insertReport := report]> (dailyReports st))).

Definition updateDailyReport (now : Date) (date : Z)
    (updates : PartialDailyReport.t) : M unit :=
  λ st,
    match dailyReports st !! date with
    | Some report =>
        let updates :=
          if default false (PartialDailyReport.isSubmitted updates)
             && negb (DailyReport.isSubmitted report)
          then PartialDailyReport.with_submittedAt updates (Some now)
          else updates in
        (tt, set_dailyReports st
               (<[date := Object_assign report updates]> (dailyReports st)))
    | None => (tt, st)
    end.

Definition getDashboardStats (now : Date) : M DashboardStats.t :=
  let today := toISODate now in
  todaySales ← getSalesByDate today;
  let dailyProfit := sum_of Sale.profit todaySales in
  let dailySales := sum_of Sale.totalAmount todaySales in
  let dailyCost := number_sub dailySales dailyProfit in
  let dailyMargin :=
    if number_gt dailySales (Num 0)
    then number_mul (number_div dailyProfit dailySales) (Num 100)
    else Num 0 in
  let weekAgo := addDays now (-7) in
  let weeklyStartDate := toISODate weekAgo in
  weeklySales ← getSalesByDateRange weeklyStartDate today;
  let weeklyProfit := sum_of Sale.profit weeklySales in
  st ← get_store;
  mret (DashboardStats.mk
         (toFixed 2 dailyProfit)
         (toFixed 2 dailySales)
         (toFixed 2 dailyCost)
         (toFixed 1 dailyMargin)
         (toFixed 2 weeklyProfit)
         (size (products st))).

(** The body of the [for (let i = 6; i >= 0; i--)] loop of
    [getWeeklyData], and the loop itself. *)
Definition weeklyEntry (tzOffset : Z) (today : Date) (i : Z)
    : M WeeklyEntry.t :=
  let date := addDays today (- i) in
  let dateStr := toISODate date in
  daySales ← getSalesByDate dateStr;
  let dayProfit := sum_of Sale.profit daySales in
  let daySalesAmount := sum_of Sale.totalAmount daySales in
  mret (WeeklyEntry.mk (getDay tzOffset date)
         (toFixed 2 dayProfit) (toFixed 2 daySalesAmount)).

Fixpoint weeklyLoop (tzOffset : Z) (today : Date) (steps : list Z)
    : M (list WeeklyEntry.t) :=
  match steps with
  | [] => mret []
  | i :: steps =>
      e ← weeklyEntry tzOffset today i;
      rest ← weeklyLoop tzOffset today steps;
      mret (e :: rest)
  end.

Definition getWeeklyData (tzOffset : Z) (now : Date)
    : M (list WeeklyEntry.t) :=
  weeklyLoop tzOffset now [6; 5; 4; 3; 2; 1; 0].

(** ** Request bodies and insert schemas

    A property of a JSON body is absent, present with a type the schema
    refuses, or a text.  [insertProductSchema] and [insertSaleSchema]
    are the drizzle-zod insert schemas of the two tables: every column
    but [id] and the timestamp, each one a text, required unless the
    column has a default.  [parse] returning [None] is the [ZodError]. *)

Inductive field (A : Type) : Type :=
  | Missing
  | WrongType
  | Text (a : A).
Arguments Missing {A}.
Arguments WrongType {A}.
Arguments Text {A} a.

Module ProductBody.
Record t : Type := mk {
    name : field string;
    purchasePrice : field number;
    sellingPrice : field number;
    stock : field number
  }.
End ProductBody.

Module SaleBody.
Record t : Type := mk {
    productId : field string;
    quantity : field number;
    pricePerKg : field number;
    totalAmount : field number;
    profit : field number
  }.
End SaleBody.

Definition insertProductSchema_parse (body : ProductBody.t)
    : option InsertProduct.t :=
  match ProductBody.name body, ProductBody.purchasePrice body,
        ProductBody.sellingPrice body with
  | Text name, Text purchasePrice, Text sellingPrice =>
      match ProductBody.stock body with
      | Missing =>
          Some (InsertProduct.mk name purchasePrice sellingPrice None)
      | Text stock =>
          Some (InsertProduct.mk name purchasePrice sellingPrice (Some stock))
      | WrongType => None
      end
  | _, _, _ => None
  end.

Definition insertSaleSchema_parse (body : SaleBody.t)
    : option InsertSale.t :=
  match SaleBody.productId body, SaleBody.quantity body,
        SaleBody.pricePerKg body, SaleBody.totalAmount body,
        SaleBody.profit body with
  | Text productId, Text quantity, Text pricePerKg, Text totalAmount,
    Text profit =>
      Some (InsertSale.mk productId quantity pricePerKg totalAmount profit)
  | _, _, _, _, _ => None
  end.

(** ** Responses *)

Inductive payload : Type :=
  | Message (message : string)
  | MessageErrors (message : string)
  | ProductJson (product : Product.t)
  | SaleJson (sale : Sale.t)
  | StatsJson (stats : DashboardStats.t)
  | MessageReport (message : string) (report : DailyReport.t).

Record response : Type := mkResponse {
  status : Z;
  json : payload
}.

(** [res.json(x)] and [res.status(code).json(x)]. *)
Definition res_json (x : payload) : response := mkResponse 200 x.
Definition res_status_json (code : Z) (x : payload) : response :=
  mkResponse code x.

(** The failures of the specification, as the handlers report them. *)
Definition ValidationError_product : response :=
  res_status_json 400 (MessageErrors "Invalid product data").
Definition ValidationError_sale : response :=
  res_status_json 400 (MessageErrors "Invalid sale data").
Definition NotFound : response :=
  res_status_json 404 (Message "Product not found").
Definition InsufficientStock : response :=
  res_status_json 400 (Message "Insufficient stock").
Definition InvalidStockAmount : response :=
  res_status_json 400 (Message "Valid stock amount is required").
Definition EarlySubmission : response :=
  res_status_json 400
    (Message "Daily report can only be submitted after 6:00 PM").

(** ** Handlers of server/routes.ts

    [uuid] is what [randomUUID()] returns and [now] what [new Date()]
    reads during the request.  No call of a handler throws but the
    schema's [parse], so the [catch] branches answering 500 are not
    reached. *)

(** POST /api/products *)
Definition post_products (body : ProductBody.t) (uuid : string) (now : Date)
    : M response :=
  match insertProductSchema_parse body with
  | Some productData =>
      product ← createProduct uuid now productData;
      mret (res_json (ProductJson product))
  | None => mret ValidationError_product
  end.

(** POST /api/sales *)
Definition post_sales (body : SaleBody.t) (uuid : string) (now : Date)
    : M response :=
  match insertSaleSchema_parse body with
  | Some saleData =>
      product ← getProduct (InsertSale.productId saleData);
      match product with
      | None => mret NotFound
      | Some product =>
          if number_lt (Product.stock product) (InsertSale.quantity saleData)
          then mret InsufficientStock
          else
            sale ← createSale uuid now saleData;
            mret (res_json (SaleJson sale))
      end
  | None => mret ValidationError_sale
  end.

(** GET /api/dashboard/stats *)
Definition get_dashboard_stats (now : Date) : M response :=
  stats ← getDashboardStats now;
  mret (res_json (StatsJson stats)).

(** PATCH /api/products/:id/stock.  [newStock] is [None] for a falsy
    property (absent, [null], the empty text, [0], [false]) and
    [Some x] for a truthy one, the text [x]. *)
Definition patch_products_stock (id : string) (newStock : option number)
    : M response :=
  match newStock with
  | None => mret InvalidStockAmount
  | Some x =>
      if isNaN x then mret InvalidStockAmount
      else
        updateProductStock id x;;
        mret (res_json (Message "Stock updated successfully"))
  end.

(** POST /api/reports/daily/submit *)
Definition post_reports_daily_submit (tzOffset : Z) (uuid : string)
    (now : Date) : M response :=
  let today := toISODate now in
  let currentHour := getHours tzOffset now in
  if currentHour <? 18 then mret EarlySubmission
  else
    todaySales ← getSalesByDate today;
    let totalSales := sum_of Sale.totalAmount todaySales in
    let totalProfit := sum_of Sale.profit todaySales in
    let totalCost := number_sub totalSales totalProfit in
    existingReport ← getDailyReport today;
    match existingReport with
    | Some _ =>
        updateDailyReport now today
          (PartialDailyReport.mk None None
             (Some (toFixed 2 totalSales))
             (Some (toFixed 2 totalProfit))
             (Some (toFixed 2 totalCost))
             (Some true) None);;
        mret (res_json
                (Message "Daily report updated and submitted successfully"))
    | None =>
        report ← createDailyReport uuid now
          (InsertDailyReport.mk today
             (toFixed 2 totalSales)
             (toFixed 2 totalProfit)
             (toFixed 2 totalCost)
             true);
        mret (res_json
                (MessageReport "Daily report submitted successfully" report))
    end.

(** ** The sale form of client/src/pages/record-sale.tsx

    [saleData] as [mutationFn] builds it from the form fields and the
    product list the page holds. *)

Module SaleForm.
Record t : Type := mk {
    productId : string;
    quantity : number;
    pricePerKg : number
  }.
End SaleForm.

Definition RecordSale_saleData (products : list Product.t)
    (data : SaleForm.t) : SaleBody.t :=
  let selectedProduct :=
    List.find (λ p, bool_decide (Product.id p = SaleForm.productId data))
      products in
  let totalAmount :=
    number_mul (or_zero (SaleForm.quantity data))
               (or_zero (SaleForm.pricePerKg data)) in
  let totalCost :=
    match selectedProduct with
    | Some selectedProduct =>
        number_mul (or_zero (SaleForm.quantity data))
                   (Product.purchasePrice selectedProduct)
    | None => Num 0
    end in
  let profit := number_sub totalAmount totalCost in
  SaleBody.mk
    (Text (SaleForm.productId data))
    (Text (SaleForm.quantity data))
    (Text (SaleForm.pricePerKg data))
    (Text (toFixed 2 totalAmount))
    (Text (toFixed 2 profit)).

(** ** The stock controls of
       client/src/components/quick-stock-adjuster.tsx

    Each handler yields the [newStock] it sends with the PATCH request,
    or nothing when it returns without sending one. *)

Inductive adjustmentType : Type :=
  | adj_add
  | adj_remove.

Definition handleQuickAdjustment (product : Product.t)
    (type : adjustmentType) (amount : number) : option number :=
  let currentStock := Product.stock product in
  let newStock :=
    match type with
    | adj_add => number_add currentStock amount
    | adj_remove => max_zero (number_sub currentStock amount)
    end in
  Some (toFixed 1 newStock).

Definition handleStockUpdate (selectedProduct : option Product.t)
    (stockAdjustmentType : adjustmentType) (adjustment : number)
    : option number :=
  match selectedProduct with
  | None => None
  | Some selectedProduct =>
      let currentStock := Product.stock selectedProduct in
      match stockAdjustmentType with
      | adj_add => Some (toFixed 1 (number_add currentStock adjustment))
      | adj_remove =>
          let newStock := number_sub currentStock adjustment in
          if number_lt newStock (Num 0) then None
          else Some (toFixed 1 newStock)
      end
  end.

(** ** Requests and runs

    A ledger is reached from [new MemStorage()] by a sequence of
    requests, each handled to completion before the next. *)

Inductive request : Type :=
  | PostProduct (body : ProductBody.t) (uuid : string) (now : Date)
  | PostSale (body : SaleBody.t) (uuid : string) (now : Date)
  | PatchStock (id : string) (newStock : option number)
  | PostSubmit (uuid : string) (now : Date).

Definition handle (tzOffset : Z) (r : request) : M response :=
  match r with
  | PostProduct body uuid now => post_products body uuid now
  | PostSale body uuid now => post_sales body uuid now
  | PatchStock id newStock => patch_products_stock id newStock
  | PostSubmit uuid now => post_reports_daily_submit tzOffset uuid now
  end.

Definition run (tzOffset : Z) (rs : list request) (st : MemStorage)
    : MemStorage :=
  foldl (λ st r, (handle tzOffset r st).2) st rs.

(** ** Properties stated by the specification *)

(** A double that is not below zero ([Infinity] is one), and a stock
    that reads as such a number. *)
Definition nonneg_double (x : number) : Prop :=
  match x with
  | Num s => (0 <= s)%Q
  | PosInfinity => True
  | _ => False
  end.

Definition stock_nonneg (p : Product.t) : Prop :=
  nonneg_double (parseFloat (Product.stock p)).

Definition all_stock_nonneg (st : MemStorage) : Prop :=
  map_Forall (λ _ p, stock_nonneg p) (products st).

(** The [round2] of the specification: two decimals, halves away from
    zero. *)
Definition round2 (x : number) : number := toFixed 2 x.

(** The totals of a sale as the specification derives them from the
    quantity, the price per kg and the purchase price of the product. *)
Definition derived_totals (purchasePrice : number) (sale : Sale.t) : Prop :=
  number_eq (Sale.totalAmount sale)
    (round2 (number_mul (Sale.quantity sale) (Sale.pricePerKg sale)))
  ∧ number_eq (Sale.profit sale)
      (round2
         (number_sub (Sale.totalAmount sale)
            (number_mul (Sale.quantity sale) purchasePrice))).

(** What a request may supply for the stock invariant to be kept: a
    new product comes with a stock, every stock supplied reads as a
    number not below zero, every sale quantity reads as a finite
    number. *)
Definition nonneg_number (x : number) : bool :=
  match parseFloat x with
  | Num s => Qle_bool 0 s
  | PosInfinity => true
  | _ => false
  end.

Definition supplied_ok (r : request) : bool :=
  match r with
  | PostProduct body _ _ =>
      match insertProductSchema_parse body with
      | Some productData =>
          match InsertProduct.stock productData with
          | Some s => nonneg_number s
          | None => false
          end
      | None => true
      end
  | PostSale body _ _ =>
      match insertSaleSchema_parse body with
      | Some saleData => isFinite (InsertSale.quantity saleData)
      | None => true
      end
  | PatchStock _ newStock =>
      match newStock with
      | Some x => isNaN x || nonneg_number x
      | None => true
      end
  | PostSubmit _ _ => true
  end.

(** ** Sample ledgers *)

Definition mung : Product.t :=
  Product.mk "p1" "Mung beans" (Num 2) (Num 3) (Num 100) 1699990000000.

Definition ledger_100 : MemStorage := mkStorage {["p1" := mung]} ∅ ∅.

Definition ledger_90 : MemStorage :=
  mkStorage {["p1" := Product.with_stock mung (Num 90)]} ∅ ∅.

(** 2023-11-14T22:13:20Z; 03:13 on the 15th in Tashkent, whose
    [getTimezoneOffset()] is -300. *)
Definition night : Date := 1700000000000.
(** 2023-11-14T13:00:00Z, 18:00 in Tashkent; and one hour earlier. *)
Definition evening : Date := 1699966800000.
Definition afternoon : Date := 1699963200000.
(** 2023-11-14T16:00:00Z, 21:00 in Tashkent. *)
Definition late : Date := 1699977600000.

(** Ten kilograms at 3.00, with the totals of the form. *)
Definition ten_sale : SaleBody.t :=
  SaleBody.mk (Text "p1") (Text (Num 10)) (Text (Num 3))
    (Text (Num 30)) (Text (Num 10)).



(** A request whose totals are not those of its quantity and price. *)
Definition overstated_sale : SaleBody.t :=
  SaleBody.mk (Text "p1") (Text (Num 10)) (Text (Num 3))
    (Text (Num 999)) (Text (Num 5)).

Definition mung_body : ProductBody.t :=
  ProductBody.mk (Text "Mung beans") (Text (Num 2)) (Text (Num 3))
    (Text (Num 90)).

(** The three totals the submit handler computes from the sales of the
    day, as it sends them to the store. *)
Definition day_totals (now : Date) (st : MemStorage)
    : number * number * number :=
  let todaySales := (getSalesByDate (toISODate now) st).1 in
  let totalSales := sum_of Sale.totalAmount todaySales in
  let totalProfit := sum_of Sale.profit todaySales in
  (toFixed 2 totalSales, toFixed 2 totalProfit,
   toFixed 2 (number_sub totalSales totalProfit)).

(** A ledger whose report for the day of [evening] was submitted at
    [evening], one hour before a sale of 30.00 was recorded. *)
Definition ledger_submitted : MemStorage :=
  mkStorage {["p1" := mung]}
    {["s1" := Sale.mk "s1" "p1" (Num 10) (Num 3) (Num 30) (Num 10)
                (evening + msPerHour)]}
    {[toISODate evening :=
        DailyReport.mk "r1" (toISODate evening) (Num 0) (Num 0) (Num 0) true
          (Some evening)]}.

(** A host five hours west of UTC ([getTimezoneOffset()] is 300):
    2023-11-14T23:30Z, T23:45Z and 2023-11-15T00:30Z are 18:30, 18:45
    and 19:30 of the 14th there. *)
Definition dusk_west : Date := 1700004600000.
Definition sale_west : Date := 1700005500000.
Definition night_west : Date := 1700008200000.

(** One evening on that host: the report is submitted, a sale of 30.00
    follows, the report is submitted again. *)
Definition evening_west : list request :=
  [PostSubmit "r1" dusk_west;
   PostSale ten_sale "s1" sale_west;
   PostSubmit "r2" night_west].

(** A host eight hours west of UTC: 2023-11-15T02:00Z is 18:00 of the
    14th there. *)
Definition dusk_pacific : Date := 1700013600000.

(** The weekly profit as the specification words it: the profit of the
    sales whose day lies in the seven days ending today. *)
Definition trailing_window_profit (now : Date) (st : MemStorage) : number :=
  toFixed 2
    (sum_of Sale.profit
       (filter (λ sale, toISODate now - 6 ≤ toISODate (Sale.saleDate sale)
                        ∧ toISODate (Sale.saleDate sale) ≤ toISODate now)
          (values (sales st)))).

(** One sale with profit 5, made seven days before [night]. *)
Definition ledger_week_old : MemStorage :=
  mkStorage {["p1" := mung]}
    {["s1" := Sale.mk "s1" "p1" (Num 10) (Num 3) (Num 30) (Num 5)
                (addDays night (-7))]}
    ∅.

Definition is_text {A} (f : field A) : bool :=
  match f with Text _ => true | _ => false end.

(** The shape [insertProductSchema] asks of a body: a text for the
    name and for each price, and for the stock a text or nothing. *)
Definition well_shaped (body : ProductBody.t) : bool :=
  is_text (ProductBody.name body)
  && is_text (ProductBody.purchasePrice body)
  && is_text (ProductBody.sellingPrice body)
  && match ProductBody.stock body with WrongType => false | _ => true end.

(** A body every constraint of the specification refuses. *)
Definition unsound_product : ProductBody.t :=
  ProductBody.mk (Text "") (Text (Num (-1))) (Text (Num 0))
    (Text (Num (-5))).

(** ** Listings of MemStorage

    [getProducts] and [getSales] sort the values of a map with the
    comparator [(a, b) => time(b) - time(a)]: [a] stays before [b] when
    it is not older.  [Array.prototype.sort] is a stable comparison
    sort; a merge sort stands for it.  The order among entries of equal
    time follows the insertion order of the [Map] in the source and is
    not fixed here. *)

Definition newest_product_first (a b : Product.t) : Prop :=
  Product.createdAt b ≤ Product.createdAt a.

Definition most_recent_sale_first (a b : Sale.t) : Prop :=
  Sale.saleDate b ≤ Sale.saleDate a.

#[export] Instance newest_product_first_dec :
  RelDecision newest_product_first :=
  λ a b, decide (Product.createdAt b ≤ Product.createdAt a).

#[export] Instance most_recent_sale_first_dec :
  RelDecision most_recent_sale_first :=
  λ a b, decide (Sale.saleDate b ≤ Sale.saleDate a).

Definition getProducts : M (list Product.t) :=
  λ st, (merge_sort newest_product_first (values (products st)), st).

Definition getSales : M (list Sale.t) :=
  λ st, (merge_sort most_recent_sale_first (values (sales st)), st).

(** ** More of the pages

    [onSubmit] of client/src/pages/record-sale.tsx, called once the
    form schema has accepted the fields: the body it sends, or nothing
    when it stops on a toast. *)

Definition RecordSale_onSubmit (products : list Product.t)
    (data : SaleForm.t) : option SaleBody.t :=
  let selectedProduct :=
    List.find (λ p, bool_decide (Product.id p = SaleForm.productId data))
      products in
  match selectedProduct with
  | None => None
  | Some selectedProduct =>
      let quantityNum := SaleForm.quantity data in
      let stockNum := Product.stock selectedProduct in
      if number_gt quantityNum stockNum then None
      else Some (RecordSale_saleData products data)
  end.

(** [handleCustomAdjustment] of quick-stock-adjuster.tsx. *)
Definition handleCustomAdjustment (product : Product.t)
    (adjustmentType : adjustmentType) (adjustment : number)
    : option number :=
  let adjustmentNum := adjustment in
  if isNaN adjustmentNum || number_le adjustmentNum (Num 0) then None
  else
    let currentStock := Product.stock product in
    let newStock :=
      match adjustmentType with
      | adj_add => number_add currentStock adjustmentNum
      | adj_remove => max_zero (number_sub currentStock adjustmentNum)
      end in
    Some (toFixed 1 newStock).

(** ** Further predicates *)

(** Every product and every sale sits under its own id, and every sale
    names a product of the store. *)
Definition ledger_consistent (st : MemStorage) : Prop :=
  map_Forall (λ k p, Product.id p = k) (products st)
  ∧ map_Forall (λ k s, Sale.id s = k
                       ∧ is_Some (products st !! Sale.productId s))
      (sales st).

(** Every report sits under its own date, is submitted and carries the
    time of its submission. *)
Definition reports_submitted (st : MemStorage) : Prop :=
  map_Forall (λ d r, DailyReport.date r = d
                     ∧ DailyReport.isSubmitted r = true
                     ∧ is_Some (DailyReport.submittedAt r))
    (dailyReports st).

(** The ids under which the sale requests of a run would record. *)
Fixpoint sale_uuids (rs : list request) : list string :=
  match rs with
  | [] => []
  | PostSale _ uuid _ :: rs => uuid :: sale_uuids rs
  | _ :: rs => sale_uuids rs
  end.

(** What a stock control of the page sends for a product, given an
    amount that is a finite number not below zero. *)
Definition stock_control_sends (p : Product.t) (x : number) : Prop :=
  ∃ (type : adjustmentType) (a : Q),
    (0 <= a)%Q
    ∧ isFinite (Num a) = true
    ∧ (handleQuickAdjustment p type (Num a) = Some x
       ∨ handleCustomAdjustment p type (Num a) = Some x
       ∨ handleStockUpdate (Some p) type (Num a) = Some x).

(** The ids under which the product requests of a run would store. *)
Fixpoint product_uuids (rs : list request) : list string :=
  match rs with
  | [] => []
  | PostProduct _ uuid _ :: rs => uuid :: product_uuids rs
  | _ :: rs => product_uuids rs
  end.

(** * Basic facts *)

Ltac unfold_handlers :=
  unfold post_products, post_sales, patch_products_stock,
    post_reports_daily_submit, get_dashboard_stats, getDashboardStats,
    createSale, createProduct, updateProductStock, getProduct,
    getSalesByDate, getSalesByDateRange, getDailyReport, createDailyReport,
    updateDailyReport, get_store, put_store, mbind, M_bind, mret, M_ret.

Lemma toISODate_addDays (d : Date) (n : Z) :
  toISODate (addDays d n) = toISODate d + n.
Proof.
  unfold toISODate, addDays, msPerDay.
  rewrite Z.div_add by lia. reflexivity.
Qed.

(** ** Binary64 rounding

    [to_double] gives a double, none is nearer to its argument, a
    double is read as itself, and rounding keeps the order. *)

Local Open Scope Q_scope.

Lemma pow2_pos (e : Z) : 0 < pow2 e.
Proof. unfold pow2. by apply Qpower_0_lt. Qed.

Lemma pow2_add (a b : Z) : pow2 (a + b) == pow2 a * pow2 b.
Proof. unfold pow2. by apply Qpower_plus. Qed.

Lemma pow2_sub (a b : Z) : pow2 (a - b) == pow2 a / pow2 b.
Proof. unfold pow2. by apply Qpower_minus. Qed.

Lemma pow2_succ (a : Z) : pow2 (a + 1) == 2 * pow2 a.
Proof. rewrite pow2_add. change (pow2 1) with 2. ring. Qed.

Lemma pow2_Z (a : Z) : (0 <= a)%Z → pow2 a == inject_Z (2 ^ a).
Proof. intros Ha. unfold pow2. by rewrite Zpower_Qpower. Qed.

Lemma pow2_le (a b : Z) : (a <= b)%Z → pow2 a <= pow2 b.
Proof. intros Hab. unfold pow2. by apply Qpower_le_compat_l. Qed.

Lemma pow2_lt (a b : Z) : (a < b)%Z → pow2 a < pow2 b.
Proof. intros Hab. unfold pow2. by apply Qpower_lt_compat_l. Qed.

Lemma pow2_lt_inv (a b : Z) : pow2 a < pow2 b → (a < b)%Z.
Proof. intros Hab. by apply (Qpower_lt_compat_l_inv 2). Qed.

Lemma pow2_le_inv (a b : Z) : pow2 a <= pow2 b → (a <= b)%Z.
Proof. intros Hab. by apply (Qpower_le_compat_l_inv 2). Qed.

(** [floor_log2 x] is the binary exponent of [x]. *)
Lemma floor_log2_spec (x : Q) :
  0 < x → pow2 (floor_log2 x) <= x ∧ x < pow2 (floor_log2 x + 1).
Proof.
  intros Hx. destruct x as [n d]. unfold floor_log2. cbn [Qnum Qden].
  assert (Hn : (0 < n)%Z).
  { unfold Qlt in Hx. simpl in Hx. lia. }
  set (a := Z.log2 n). set (b := Z.log2 (Z.pos d)).
  destruct (Z.log2_spec n Hn) as [Ha1 Ha2].
  destruct (Z.log2_spec (Z.pos d) eq_refl) as [Hb1 Hb2].
  fold a in Ha1, Ha2. fold b in Hb1, Hb2.
  assert (Ha0 : (0 <= a)%Z) by apply Z.log2_nonneg.
  assert (Hb0 : (0 <= b)%Z) by apply Z.log2_nonneg.
  rewrite Z.pow_succ_r in Ha2, Hb2 by done.
  rewrite Zle_Qle in Ha1, Hb1. rewrite Zlt_Qlt in Ha2, Hb2.
  rewrite inject_Z_mult in Ha2, Hb2.
  rewrite <- pow2_Z in Ha1, Ha2, Hb1, Hb2 by done.
  change (inject_Z 2) with 2 in Ha2, Hb2.
  pose proof (pow2_pos a) as HA. pose proof (pow2_pos b) as HB.
  assert (HD : 0 < inject_Z (Z.pos d)) by (by rewrite <- (Zlt_Qlt 0)).
  assert (Hxq : n # d == inject_Z n / inject_Z (Z.pos d))
    by apply Qmake_Qdiv.
  assert (Hup : n # d < pow2 (a - b + 1)).
  { rewrite Hxq, pow2_succ, pow2_sub.
    apply Qlt_shift_div_r; [done|].
    assert (E : 2 * (pow2 a / pow2 b) * inject_Z (Z.pos d)
                == (2 * pow2 a * inject_Z (Z.pos d)) / pow2 b)
      by (field; lra).
    rewrite E. apply Qlt_shift_div_l; [done|]. nra. }
  assert (Hlow : pow2 (a - b - 1) <= n # d).
  { assert (E : pow2 (a - b) == 2 * pow2 (a - b - 1)).
    { rewrite <- pow2_succ. apply Qpower_comp; [done|lia]. }
    rewrite pow2_sub in E.
    assert (E2 : pow2 (a - b - 1) == pow2 a / (2 * pow2 b)).
    { apply (Qmult_inj_l _ _ 2); [lra|]. rewrite <- E. field. lra. }
    rewrite E2, Hxq.
    apply Qle_shift_div_l; [done|].
    assert (E3 : pow2 a / (2 * pow2 b) * inject_Z (Z.pos d)
                 == (pow2 a * inject_Z (Z.pos d)) / (2 * pow2 b))
      by (field; lra).
    rewrite E3. apply Qle_shift_div_r; [lra|]. nra. }
  destruct (Qle_bool (pow2 (a - b)) (n # d)) eqn:Hb.
  - apply Qle_bool_iff in Hb. done.
  - split; [done|].
    replace (a - b - 1 + 1)%Z with (a - b)%Z by lia.
    apply Qnot_le_lt. intros Hle. apply Qle_bool_iff in Hle. congruence.
Qed.

(** The exponent is the only one. *)
Lemma floor_log2_unique (x : Q) (k : Z) :
  pow2 k <= x → x < pow2 (k + 1) → floor_log2 x = k.
Proof.
  intros H1 H2.
  assert (Hx : 0 < x) by (pose proof (pow2_pos k); lra).
  destruct (floor_log2_spec x Hx) as [H3 H4].
  assert (floor_log2 x < k + 1)%Z by (apply pow2_lt_inv; lra).
  assert (k < floor_log2 x + 1)%Z by (apply pow2_lt_inv; lra).
  lia.
Qed.

Lemma floor_log2_comp (x y : Q) :
  0 < x → x == y → floor_log2 x = floor_log2 y.
Proof.
  intros Hx Hxy. symmetry.
  destruct (floor_log2_spec x Hx) as [H1 H2].
  apply floor_log2_unique; by rewrite <- Hxy.
Qed.

Lemma floor_log2_mono (x y : Q) :
  0 < x → x <= y → (floor_log2 x <= floor_log2 y)%Z.
Proof.
  intros Hx Hxy.
  destruct (floor_log2_spec x Hx) as [H1 _].
  destruct (floor_log2_spec y) as [_ H2]; [lra|].
  assert (floor_log2 x < floor_log2 y + 1)%Z by (apply pow2_lt_inv; lra).
  lia.
Qed.

(** *** Rounding to the nearest integer *)

Lemma round_half_even_comp (x y : Q) :
  x == y → round_half_even x = round_half_even y.
Proof.
  intros Hxy. unfold round_half_even.
  rewrite (Qfloor_comp _ _ Hxy).
  assert ((x - inject_Z (Qfloor y) ?= 1 # 2)
          = (y - inject_Z (Qfloor y) ?= 1 # 2)) as ->; [|done].
  apply Qcompare_comp; [by rewrite Hxy|done].
Qed.

Lemma round_half_even_cases (y : Q) :
  (round_half_even y = Qfloor y ∧ y - inject_Z (Qfloor y) <= 1 # 2)
  ∨ (round_half_even y = (Qfloor y + 1)%Z
     ∧ 1 # 2 <= y - inject_Z (Qfloor y)).
Proof.
  unfold round_half_even.
  destruct (Qcompare_spec (y - inject_Z (Qfloor y)) (1 # 2)) as [H|H|H].
  - destruct (Z.even (Qfloor y)); [left|right]; split; try done; lra.
  - left. split; [done|lra].
  - right. split; [done|lra].
Qed.

Lemma Qfloor_bounds (y : Q) :
  inject_Z (Qfloor y) <= y ∧ y < inject_Z (Qfloor y) + 1.
Proof.
  split; [apply Qfloor_le|].
  pose proof (Qlt_floor y) as H. rewrite inject_Z_plus in H. exact H.
Qed.

Lemma round_half_even_Z (n : Z) : round_half_even (inject_Z n) = n.
Proof.
  destruct (round_half_even_cases (inject_Z n)) as [[-> _]|[_ H]].
  - apply Qfloor_Z.
  - rewrite Qfloor_Z in H. lra.
Qed.

(** No integer is nearer. *)
Lemma round_half_even_nearest (y : Q) (n : Z) :
  Qabs (inject_Z (round_half_even y) - y) <= Qabs (inject_Z n - y).
Proof.
  destruct (Qfloor_bounds y) as [Hf1 Hf2].
  assert (Hn : y - inject_Z (Qfloor y) <= Qabs (inject_Z n - y)
               ∨ inject_Z (Qfloor y) + 1 - y <= Qabs (inject_Z n - y)).
  { destruct (Z_le_gt_dec n (Qfloor y)) as [Hle|Hgt].
    - left. rewrite Zle_Qle in Hle.
      rewrite Qabs_Qminus.
      apply Qle_trans with (y - inject_Z n); [lra|apply Qle_Qabs].
    - right. assert (Hge : (Qfloor y + 1 <= n)%Z) by lia.
      rewrite Zle_Qle, inject_Z_plus in Hge.
      change (inject_Z 1) with 1 in Hge.
      apply Qle_trans with (inject_Z n - y); [lra|apply Qle_Qabs]. }
  apply Qabs_Qle_condition.
  destruct (round_half_even_cases y) as [[-> H]|[-> H]];
    rewrite ?inject_Z_plus; change (inject_Z 1) with 1;
    destruct Hn as [Hn|Hn]; split; lra.
Qed.

Lemma round_half_even_mono (x y : Q) :
  x <= y → (round_half_even x <= round_half_even y)%Z.
Proof.
  intros Hxy.
  pose proof (Qfloor_resp_le _ _ Hxy) as Hfl.
  destruct (Z.eq_dec (Qfloor x) (Qfloor y)) as [Heq|Hne].
  - unfold round_half_even. rewrite Heq.
    destruct (Qcompare_spec (x - inject_Z (Qfloor y)) (1 # 2)) as [Hx|Hx|Hx];
      destruct (Qcompare_spec (y - inject_Z (Qfloor y)) (1 # 2))
        as [Hy|Hy|Hy];
      try destruct (Z.even (Qfloor y)); try lia; lra.
  - assert (Hlt : (Qfloor x + 1 <= Qfloor y)%Z) by lia.
    destruct (round_half_even_cases x) as [[-> _]|[-> _]];
      destruct (round_half_even_cases y) as [[-> _]|[-> _]]; lia.
Qed.

Lemma round_half_even_le_Z (y : Q) (N : Z) :
  y <= inject_Z N → (round_half_even y <= N)%Z.
Proof.
  intros H. rewrite <- (round_half_even_Z N).
  by apply round_half_even_mono.
Qed.

Lemma round_half_even_ge_Z (y : Q) (N : Z) :
  inject_Z N <= y → (N <= round_half_even y)%Z.
Proof.
  intros H. rewrite <- (round_half_even_Z N) at 1.
  by apply round_half_even_mono.
Qed.

(** *** The nearest double *)

Lemma nearest_double_eq (x : Q) :
  nearest_double x
  == inject_Z (round_half_even (x / pow2 (exponent x))) * pow2 (exponent x).
Proof. unfold nearest_double. apply Qred_correct. Qed.

Lemma pow2_split (a b : Z) : pow2 a == pow2 (a - b) * pow2 b.
Proof. rewrite <- pow2_add. apply Qpower_comp; [done|lia]. Qed.

Lemma scaled_back (x : Q) (e : Z) : x / pow2 e * pow2 e == x.
Proof. pose proof (pow2_pos e). field. lra. Qed.

(** Among the multiples of [2 ^ exponent x] none is nearer to [x]. *)
Lemma nearest_double_multiple (x : Q) (N : Z) :
  Qabs (nearest_double x - x)
  <= Qabs (inject_Z N * pow2 (exponent x) - x).
Proof.
  rewrite nearest_double_eq.
  set (e := exponent x). set (y := x / pow2 e).
  pose proof (pow2_pos e) as He.
  assert (Hx : x == y * pow2 e) by (unfold y; by rewrite scaled_back).
  assert (E : ∀ n, inject_Z n * pow2 e - x == (inject_Z n - y) * pow2 e)
    by (intros n; rewrite Hx at 1; ring).
  rewrite !E, !Qabs_Qmult, (Qabs_pos (pow2 e)) by lra.
  apply Qmult_le_compat_r; [|lra]. apply round_half_even_nearest.
Qed.

Lemma exponent_cases (x : Q) :
  (exponent x = floor_log2 x - 52 ∧ -1074 <= floor_log2 x - 52)%Z
  ∨ (exponent x = -1074 ∧ floor_log2 x - 52 < -1074)%Z.
Proof. unfold exponent. lia. Qed.

(** In the normal range the result keeps the binary exponent. *)
Lemma nearest_double_lower (x : Q) :
  0 < x → (-1074 <= floor_log2 x - 52)%Z →
  pow2 (floor_log2 x) <= nearest_double x.
Proof.
  intros Hx Hnormal. rewrite nearest_double_eq.
  assert (He : exponent x = (floor_log2 x - 52)%Z) by (unfold exponent; lia).
  rewrite He. set (k := floor_log2 x).
  destruct (floor_log2_spec x Hx) as [Hk _]. fold k in Hk.
  pose proof (pow2_pos (k - 52)) as Hp.
  rewrite (pow2_split k (k - 52)).
  replace (k - (k - 52))%Z with 52%Z by lia.
  apply Qmult_le_compat_r; [|lra].
  rewrite pow2_Z by done. rewrite <- Zle_Qle.
  apply round_half_even_ge_Z. rewrite <- pow2_Z by done.
  apply Qle_shift_div_l; [done|].
  rewrite <- pow2_add. replace (52 + (k - 52))%Z with k by lia. done.
Qed.

(** The significand has at most 53 bits. *)
Lemma significand_range (x : Q) :
  0 < x →
  (0 <= round_half_even (x / pow2 (exponent x)) <= 2 ^ 53)%Z.
Proof.
  intros Hx. set (e := exponent x).
  pose proof (pow2_pos e) as He.
  destruct (floor_log2_spec x Hx) as [_ Hk].
  split.
  - apply round_half_even_ge_Z.
    apply Qle_shift_div_l; [done|]. change (inject_Z 0) with 0. lra.
  - apply round_half_even_le_Z. rewrite <- pow2_Z by done.
    apply Qle_shift_div_r; [done|]. rewrite <- pow2_add.
    apply Qle_trans with (pow2 (floor_log2 x + 1)); [lra|].
    apply pow2_le. unfold e, exponent. lia.
Qed.

Lemma nearest_double_representable (x : Q) :
  0 < x → representable (nearest_double x).
Proof.
  intros Hx. destruct (significand_range x Hx) as [H0 H53].
  set (n := round_half_even (x / pow2 (exponent x))) in *.
  destruct (Z.eq_dec n (2 ^ 53)%Z) as [Heq|Hne].
  - exists (2 ^ 52)%Z, (exponent x + 1)%Z.
    split; [done|]. split; [unfold exponent; lia|].
    rewrite nearest_double_eq. fold n. rewrite Heq, pow2_succ.
    rewrite <- !pow2_Z by done.
    change (pow2 53) with (2 * pow2 52). ring.
  - exists n, (exponent x). split; [lia|]. split; [unfold exponent; lia|].
    apply nearest_double_eq.
Qed.

(** No double is nearer to [x] than [nearest_double x]. *)
Lemma nearest_double_nearest (x d : Q) :
  0 < x → representable d →
  Qabs (nearest_double x - x) <= Qabs (d - x).
Proof.
  intros Hx (m & e' & Hm & He' & Hd).
  destruct (Z_le_gt_dec (exponent x) e') as [Hle|Hgt].
  - rewrite Hd, (pow2_split e' (exponent x)), (pow2_Z (e' - exponent x))
      by lia.
    rewrite Qmult_assoc, <- inject_Z_mult.
    apply nearest_double_multiple.
  - destruct (exponent_cases x) as [[He Hnormal]|[He _]]; [|lia].
    set (k := floor_log2 x) in *.
    destruct (floor_log2_spec x Hx) as [Hk _]. fold k in Hk.
    assert (Hsmall : Qabs d < pow2 k).
    { rewrite Hd, Qabs_Qmult, (Qabs_pos (pow2 e'))
        by apply Qlt_le_weak, pow2_pos.
      apply Qlt_le_trans with (pow2 53 * pow2 e').
      - apply Qmult_lt_compat_r; [apply pow2_pos|].
        rewrite pow2_Z by done.
        replace (Qabs (inject_Z m)) with (inject_Z (Z.abs m)).
        + by rewrite <- Zlt_Qlt.
        + unfold inject_Z, Qabs. done.
      - rewrite <- pow2_add. apply pow2_le. lia. }
    pose proof (nearest_double_multiple x (2 ^ 52)%Z) as Hnear.
    rewrite He in Hnear. rewrite <- pow2_Z, <- pow2_add in Hnear by done.
    replace (52 + (k - 52))%Z with k in Hnear by lia.
    rewrite (Qabs_neg (pow2 k - x)) in Hnear by lra.
    apply Qle_trans with (x - pow2 k); [lra|].
    apply Qle_trans with (x - d); [|rewrite Qabs_Qminus; apply Qle_Qabs].
    pose proof (Qle_Qabs d). lra.
Qed.

(** A double is its own nearest double. *)
Lemma nearest_double_exact (x : Q) :
  0 < x → representable x → nearest_double x == x.
Proof.
  intros Hx Hrep. pose proof (nearest_double_nearest x x Hx Hrep) as H.
  assert (E : x - x == 0) by ring.
  rewrite E in H. change (Qabs 0) with 0 in H.
  apply Qabs_Qle_condition in H. lra.
Qed.

Lemma nearest_double_comp (x y : Q) :
  0 < x → x == y → nearest_double x = nearest_double y.
Proof.
  intros Hx Hxy. unfold nearest_double.
  rewrite <- (floor_log2_comp x y Hx Hxy).
  set (e := Z.max _ _). clearbody e. apply Qred_complete.
  rewrite (round_half_even_comp (x / pow2 e) (y / pow2 e)); [done|].
  by rewrite Hxy.
Qed.

Lemma nearest_double_Qred (x : Q) :
  Qred (nearest_double x) = nearest_double x.
Proof. unfold nearest_double. apply Qred_complete, Qred_correct. Qed.

Lemma nearest_double_idempotent (x : Q) :
  0 < x → 0 < nearest_double x →
  nearest_double (nearest_double x) = nearest_double x.
Proof.
  intros Hx Hr.
  pose proof (nearest_double_exact _ Hr (nearest_double_representable x Hx))
    as Hexact.
  transitivity (Qred (nearest_double (nearest_double x)));
    [symmetry; apply nearest_double_Qred|].
  transitivity (Qred (nearest_double x)); [|apply nearest_double_Qred].
  by apply Qred_complete.
Qed.

Lemma nearest_double_mono (x y : Q) :
  0 < x → x <= y → nearest_double x <= nearest_double y.
Proof.
  intros Hx Hxy. assert (Hy : 0 < y) by lra.
  pose proof (floor_log2_mono x y Hx Hxy) as Hk.
  destruct (Z.eq_dec (exponent x) (exponent y)) as [Heq|Hne].
  - rewrite !nearest_double_eq, Heq.
    pose proof (pow2_pos (exponent y)) as He.
    apply Qmult_le_compat_r; [|lra].
    rewrite <- Zle_Qle. apply round_half_even_mono.
    apply Qle_shift_div_l; [done|]. by rewrite scaled_back.
  - assert (Hlt : (exponent x < exponent y)%Z) by (unfold exponent in *; lia).
    assert (Hnormal : (-1074 <= floor_log2 y - 52)%Z)
      by (unfold exponent in *; lia).
    assert (Hey : exponent y = (floor_log2 y - 52)%Z)
      by (unfold exponent in *; lia).
    apply Qle_trans with (pow2 (floor_log2 y));
      [|by apply nearest_double_lower].
    rewrite nearest_double_eq.
    set (e := exponent x) in *. pose proof (pow2_pos e) as He.
    rewrite (pow2_split (floor_log2 y) e).
    apply Qmult_le_compat_r; [|lra].
    rewrite (pow2_Z (floor_log2 y - e)) by lia. rewrite <- Zle_Qle.
    apply round_half_even_le_Z. rewrite <- pow2_Z by lia.
    apply Qle_shift_div_r; [done|]. rewrite <- pow2_split.
    destruct (floor_log2_spec x Hx) as [_ Hup].
    apply Qle_trans with (pow2 (floor_log2 x + 1)); [lra|].
    apply pow2_le. unfold e, exponent in *. lia.
Qed.

(** *** Doubles *)

Lemma is_double_representable (d : Q) : is_double d → representable d.
Proof.
  intros (m & e & Hm & He & Hd). exists m, e.
  split; [done|]. split; [lia|done].
Qed.

Lemma Qabs_inject_Z (m : Z) : Qabs (inject_Z m) = inject_Z (Z.abs m).
Proof. done. Qed.

Lemma representable_bounded (d : Q) :
  representable d → Qabs d < pow2 1024 → is_double d.
Proof.
  intros (m & e & Hm & He & Hd) Hbound.
  destruct (Z_le_gt_dec e 971) as [Hle|Hgt].
  - exists m, e. split; [done|]. split; [lia|done].
  - exists (m * 2 ^ (e - 971))%Z, 971%Z. split; [|split; [lia|]].
    + rewrite Hd, Qabs_Qmult, (Qabs_pos (pow2 e)) in Hbound
        by apply Qlt_le_weak, pow2_pos.
      rewrite (pow2_split e 971), (pow2_split 1024 971) in Hbound.
      replace (1024 - 971)%Z with 53%Z in Hbound by lia.
      pose proof (pow2_pos 971) as Hp.
      assert (H : Qabs (inject_Z m) * pow2 (e - 971) < pow2 53).
      { apply Qnot_le_lt. intros Hge.
        apply (Qmult_le_compat_r _ _ (pow2 971)) in Hge; [|lra]. lra. }
      rewrite Qabs_inject_Z, !pow2_Z, <- inject_Z_mult, <- Zlt_Qlt in H
        by lia.
      rewrite Z.abs_mul, (Z.abs_eq (2 ^ _)) by (apply Z.pow_nonneg; lia).
      done.
    + rewrite Hd, (pow2_split e 971), (pow2_Z (e - 971)) by lia.
      rewrite inject_Z_mult. ring.
Qed.

Lemma is_double_comp (d d' : Q) : d == d' → is_double d → is_double d'.
Proof.
  intros Hdd (m & e & Hm & He & Hd). exists m, e.
  split; [done|]. split; [done|]. by rewrite <- Hdd.
Qed.

Lemma is_double_opp (d : Q) : is_double d → is_double (- d).
Proof.
  intros (m & e & Hm & He & Hd). exists (- m)%Z, e.
  split; [lia|]. split; [done|]. rewrite Hd, inject_Z_opp. ring.
Qed.

Lemma is_double_0 : is_double 0.
Proof. exists 0%Z, 0%Z. split; [done|]. split; [lia|]. done. Qed.

(** [to_double] by the sign of its argument. *)
Lemma to_double_zero (x : Q) : x == 0 → to_double x = Num 0.
Proof. intros Hx. unfold to_double. by rewrite (proj1 (Qeq_alt x 0) Hx). Qed.

Lemma to_double_pos (x : Q) :
  0 < x →
  to_double x
  = if Qle_bool (pow2 1024) (nearest_double x) then PosInfinity
    else Num (nearest_double x).
Proof. intros Hx. unfold to_double. by rewrite (proj1 (Qgt_alt x 0) Hx). Qed.

Lemma to_double_neg (x : Q) :
  x < 0 →
  to_double x
  = if Qle_bool (pow2 1024) (nearest_double (- x)) then NegInfinity
    else Num (Qred (- nearest_double (- x))).
Proof. intros Hx. unfold to_double. by rewrite (proj1 (Qlt_alt x 0) Hx). Qed.

Lemma to_double_comp (x y : Q) : x == y → to_double x = to_double y.
Proof.
  intros Hxy. destruct (Q_dec x 0) as [[Hx|Hx]|Hx].
  - rewrite (to_double_neg x Hx), (to_double_neg y) by (by rewrite <- Hxy).
    rewrite (nearest_double_comp (- x) (- y)); [done|lra|by rewrite Hxy].
  - rewrite (to_double_pos x Hx), (to_double_pos y) by (by rewrite <- Hxy).
    by rewrite (nearest_double_comp x y).
  - rewrite (to_double_zero x Hx), (to_double_zero y); [done|].
    by rewrite <- Hxy.
Qed.

Lemma nearest_double_nonneg (x : Q) : 0 <= x → 0 <= nearest_double x.
Proof.
  intros Hx. rewrite nearest_double_eq.
  apply Qmult_le_0_compat; [|apply Qlt_le_weak, pow2_pos].
  rewrite <- (Zle_Qle 0). apply round_half_even_ge_Z.
  apply Qle_shift_div_l; [apply pow2_pos|]. change (inject_Z 0) with 0. lra.
Qed.

Lemma Qle_bool_false (a b : Q) : Qle_bool a b = false → b < a.
Proof.
  intros H. apply Qnot_le_lt. intros Hle. apply Qle_bool_iff in Hle.
  congruence.
Qed.

Lemma nearest_double_is_double (x : Q) :
  0 < x → nearest_double x < pow2 1024 → is_double (nearest_double x).
Proof.
  intros Hx Hb. apply representable_bounded.
  - by apply nearest_double_representable.
  - rewrite Qabs_pos; [done|]. apply nearest_double_nonneg. lra.
Qed.

(** The result of [to_double], when finite, is a double, and no double
    is nearer to the argument. *)
Lemma to_double_is_double (x r : Q) : to_double x = Num r → is_double r.
Proof.
  destruct (Q_dec x 0) as [[Hx|Hx]|Hx].
  - rewrite (to_double_neg x Hx).
    destruct (Qle_bool _ _) eqn:Hb; [done|]. intros [= <-].
    apply Qle_bool_false in Hb.
    apply (is_double_comp (- nearest_double (- x)));
      [by rewrite Qred_correct|].
    apply is_double_opp, nearest_double_is_double; [lra|done].
  - rewrite (to_double_pos x Hx).
    destruct (Qle_bool _ _) eqn:Hb; [done|]. intros [= <-].
    apply Qle_bool_false in Hb. by apply nearest_double_is_double.
  - rewrite (to_double_zero x Hx). intros [= <-]. apply is_double_0.
Qed.


Lemma is_double_bound (d : Q) : is_double d → Qabs d < pow2 1024.
Proof.
  intros (m & e & Hm & He & Hd).
  rewrite Hd, Qabs_Qmult, (Qabs_pos (pow2 e)), Qabs_inject_Z
    by apply Qlt_le_weak, pow2_pos.
  apply Qlt_le_trans with (pow2 53 * pow2 e).
  - apply Qmult_lt_compat_r; [apply pow2_pos|].
    rewrite pow2_Z by done. by rewrite <- Zlt_Qlt.
  - rewrite <- pow2_add. apply pow2_le. lia.
Qed.

(** A double is read as itself. *)
Lemma to_double_exact (x : Q) : is_double x → to_double x = Num (Qred x).
Proof.
  intros Hd. pose proof (is_double_bound x Hd) as Hb.
  destruct (Q_dec x 0) as [[Hx|Hx]|Hx].
  - rewrite (to_double_neg x Hx).
    assert (H0 : 0 < - x) by lra.
    pose proof (nearest_double_exact (- x) H0
                  (is_double_representable _ (is_double_opp _ Hd))) as He.
    rewrite Qabs_neg in Hb by lra.
    destruct (Qle_bool _ _) eqn:Hle.
    + apply Qle_bool_iff in Hle. lra.
    + f_equal. apply Qred_complete. rewrite He. ring.
  - rewrite (to_double_pos x Hx).
    pose proof (nearest_double_exact x Hx (is_double_representable _ Hd))
      as He.
    rewrite Qabs_pos in Hb by lra.
    destruct (Qle_bool _ _) eqn:Hle.
    + apply Qle_bool_iff in Hle. lra.
    + f_equal. rewrite <- nearest_double_Qred. by apply Qred_complete.
  - rewrite (to_double_zero x Hx). f_equal.
    change 0 with (Qred 0). symmetry. by apply Qred_complete.
Qed.

Lemma to_double_Qred (x r : Q) : to_double x = Num r → Qred r = r.
Proof.
  unfold to_double. destruct (Qcompare x 0).
  - by intros [= <-].
  - destruct (Qle_bool _ _); [done|]. intros [= <-].
    apply Qred_complete, Qred_correct.
  - destruct (Qle_bool _ _); [done|]. intros [= <-].
    apply nearest_double_Qred.
Qed.

(** Printing a double and reading the text again gives the double. *)
Lemma parseFloat_to_double (x : Q) : parseFloat (to_double x) = to_double x.
Proof.
  destruct (to_double x) as [|r| |] eqn:Hr; try done. simpl.
  rewrite (to_double_exact r (to_double_is_double x r Hr)).
  f_equal. by apply (to_double_Qred x).
Qed.

Lemma parseFloat_idempotent (x : number) :
  parseFloat (parseFloat x) = parseFloat x.
Proof. destruct x; try done. apply parseFloat_to_double. Qed.

(** Rounding keeps the order. *)
Lemma to_double_mono (x y : Q) :
  x <= y → double_le (to_double x) (to_double y).
Proof.
  intros Hxy.
  destruct (Q_dec x 0) as [[Hx|Hx]|Hx];
    destruct (Q_dec y 0) as [[Hy|Hy]|Hy]; try lra.
  - rewrite (to_double_neg x Hx), (to_double_neg y Hy).
    assert (Hm : nearest_double (- y) <= nearest_double (- x))
      by (apply nearest_double_mono; lra).
    destruct (Qle_bool _ (nearest_double (- x))) eqn:Hbx;
      destruct (Qle_bool _ (nearest_double (- y))) eqn:Hby; try done; simpl.
    + apply Qle_bool_iff in Hby. apply Qle_bool_false in Hbx. lra.
    + rewrite !Qred_correct. lra.
  - rewrite (to_double_neg x Hx), (to_double_pos y Hy).
    pose proof (nearest_double_nonneg (- x)).
    pose proof (nearest_double_nonneg y).
    destruct (Qle_bool _ (nearest_double (- x)));
      destruct (Qle_bool _ (nearest_double y)); try done; simpl.
    rewrite Qred_correct. lra.
  - rewrite (to_double_neg x Hx), (to_double_zero y Hy).
    pose proof (nearest_double_nonneg (- x)).
    destruct (Qle_bool _ _); [done|]. simpl. rewrite Qred_correct. lra.
  - rewrite (to_double_pos x Hx), (to_double_pos y Hy).
    pose proof (nearest_double_mono x y Hx Hxy) as Hm.
    destruct (Qle_bool _ (nearest_double x)) eqn:Hbx;
      destruct (Qle_bool _ (nearest_double y)) eqn:Hby; try done; simpl.
    apply Qle_bool_iff in Hbx. apply Qle_bool_false in Hby. lra.
  - rewrite (to_double_zero x Hx), (to_double_pos y Hy).
    pose proof (nearest_double_nonneg y).
    destruct (Qle_bool _ _); [done|]. simpl. lra.
  - rewrite (to_double_zero x Hx), (to_double_zero y Hy). simpl. lra.
Qed.





Local Close Scope Q_scope.

(** ** Signs *)

Lemma to_double_not_NaN (x : Q) : to_double x ≠ NaN.
Proof.
  unfold to_double. destruct (Qcompare x 0); [done|..];
    by destruct (Qle_bool _ _).
Qed.

Lemma to_double_nonneg (x : Q) : (0 <= x)%Q → nonneg_double (to_double x).
Proof.
  intros Hx. unfold to_double. destruct (Qcompare x 0) eqn:E.
  - simpl. lra.
  - apply Qlt_alt in E. lra.
  - destruct (Qle_bool _ _); [done|]. apply nearest_double_nonneg. lra.
Qed.

(** A numeric text never reads as [NaN]. *)
Lemma isNaN_Num (q : Q) : isNaN (Num q) = false.
Proof.
  unfold isNaN. simpl. pose proof (to_double_not_NaN q).
  by destruct (to_double q).
Qed.

(** Reading a number again keeps its sign. *)
Lemma parseFloat_nonneg (x : number) :
  nonneg_double x → nonneg_double (parseFloat x).
Proof. destruct x; try done. apply to_double_nonneg. Qed.

Lemma nonneg_number_spec (x : number) :
  nonneg_number x = true ↔ nonneg_double (parseFloat x).
Proof.
  unfold nonneg_number. destruct (parseFloat x); simpl; try done.
  apply Qle_bool_iff.
Qed.

Lemma Qcompare_not_Lt (a b : Q) : Qcompare a b ≠ Lt → (b <= a)%Q.
Proof.
  destruct (Qcompare a b) eqn:E; intros H; try done.
  - apply Qeq_alt in E. rewrite E. apply Qle_refl.
  - apply Qgt_alt in E. apply Qlt_le_weak. exact E.
Qed.

(** A sale that passes the stock check leaves a stock not below zero,
    when the stock was one and the quantity reads as a finite number. *)
Lemma number_sub_nonneg (x y : number) :
  nonneg_double (parseFloat x) →
  isFinite y = true →
  number_lt x y = false →
  nonneg_double (parseFloat (number_sub x y)).
Proof.
  unfold isFinite, number_lt, number_sub.
  destruct (parseFloat x) as [|a| |]; try done;
    destruct (parseFloat y) as [|b| |]; try done.
  intros _ _ Hlt. apply parseFloat_nonneg, to_double_nonneg.
  assert (b <= a)%Q; [|lra].
  apply Qcompare_not_Lt. by destruct (Qcompare a b).
Qed.

(** [createSale] writes the sale, then the stock of its product. *)
Lemma createSale_found (uuid : string) (now : Date) (ins : InsertSale.t)
    (st : MemStorage) (product : Product.t) :
  products st !! InsertSale.productId ins = Some product →
  createSale uuid now ins st =
    (Sale.mk uuid (InsertSale.productId ins) (InsertSale.quantity ins)
       (InsertSale.pricePerKg ins) (InsertSale.totalAmount ins)
       (InsertSale.profit ins) now,
     mkStorage
       (<[InsertSale.productId ins :=
            Product.with_stock product
              (number_sub (Product.stock product) (InsertSale.quantity ins))]>
          (products st))
       (<[uuid :=
            Sale.mk uuid (InsertSale.productId ins) (InsertSale.quantity ins)
              (InsertSale.pricePerKg ins) (InsertSale.totalAmount ins)
              (InsertSale.profit ins) now]> (sales st))
       (dailyReports st)).
Proof.
  intros Hp. unfold_handlers. simpl. rewrite Hp. simpl. rewrite Hp.
  reflexivity.
Qed.

(** Without the product only the sale is written: the handler rules
    this case out before it calls [createSale]. *)
Lemma createSale_unknown_product (uuid : string) (now : Date)
    (ins : InsertSale.t) (st : MemStorage) :
  products st !! InsertSale.productId ins = None →
  (createSale uuid now ins st).2 =
    set_sales st
      (<[uuid :=
           Sale.mk uuid (InsertSale.productId ins) (InsertSale.quantity ins)
             (InsertSale.pricePerKg ins) (InsertSale.totalAmount ins)
             (InsertSale.profit ins) now]> (sales st)).
Proof.
  intros Hp. unfold_handlers. simpl. rewrite Hp. reflexivity.
Qed.

(** The three outcomes of POST /api/sales on a well-formed body. *)
Lemma post_sales_cases (body : SaleBody.t) (uuid : string) (now : Date)
    (st : MemStorage) (ins : InsertSale.t) :
  insertSaleSchema_parse body = Some ins →
  post_sales body uuid now st =
    match products st !! InsertSale.productId ins with
    | None => (NotFound, st)
    | Some product =>
        if number_lt (Product.stock product) (InsertSale.quantity ins)
        then (InsufficientStock, st)
        else
          let (sale, st') := createSale uuid now ins st in
          (res_json (SaleJson sale), st')
    end.
Proof.
  intros Hparse. unfold post_sales. rewrite Hparse.
  unfold mbind, M_bind, getProduct, mret, M_ret.
  destruct (products st !! InsertSale.productId ins) as [product|]; [|done].
  destruct (number_lt _ _); [done|].
  destruct (createSale uuid now ins st); done.
Qed.

(** * Sales *)

(** C1, as stated, fails: for 10 kg at 3.00 of a product bought at 2.00
    the request may carry totalAmount 999 and profit 5; the sale is
    recorded with these, not with 30.00 and 10.00. *)
Lemma C1_counterexample :
  ∃ sale st',
    post_sales overstated_sale "s1" night ledger_100
      = (res_json (SaleJson sale), st')
    ∧ sales st' !! "s1" = Some sale
    ∧ ¬ derived_totals (Product.purchasePrice mung) sale.
Proof.
  eexists _, _. split; [vm_compute; reflexivity|].
  split; [vm_compute; reflexivity|].
  unfold derived_totals. intros [Htotal _]. vm_compute in Htotal.
  discriminate.
Qed.

(** C1 (amended): for every sale recorded through POST /api/sales, the
    stored Sale carries as totalAmount and profit exactly the two values
    the caller supplied in the request; the server derives neither. *)
Theorem post_sales_stores_supplied_totals (body : SaleBody.t)
    (uuid : string) (now : Date) (st st' : MemStorage) (sale : Sale.t) :
  post_sales body uuid now st = (res_json (SaleJson sale), st') →
  sales st' !! uuid = Some sale
  ∧ SaleBody.totalAmount body = Text (Sale.totalAmount sale)
  ∧ SaleBody.profit body = Text (Sale.profit sale)
  ∧ SaleBody.quantity body = Text (Sale.quantity sale)
  ∧ SaleBody.pricePerKg body = Text (Sale.pricePerKg sale).
Proof.
  intros Hpost.
  destruct (insertSaleSchema_parse body) as [ins|] eqn:Hparse.
  - rewrite (post_sales_cases _ _ _ _ _ Hparse) in Hpost.
    destruct (products st !! InsertSale.productId ins) as [product|] eqn:Hp;
      [|discriminate].
    destruct (number_lt _ _); [discriminate|].
    rewrite (createSale_found _ _ _ _ _ Hp) in Hpost.
    injection Hpost as <- <-. simpl.
    rewrite lookup_insert_eq.
    unfold insertSaleSchema_parse in Hparse.
    destruct body as [[] [] [] [] []]; simpl in *; try discriminate.
    injection Hparse as <-. done.
  - unfold post_sales in Hpost. rewrite Hparse in Hpost. discriminate.
Qed.

Lemma post_sales_stores_supplied_totals_witness :
  ∃ sale st',
    post_sales overstated_sale "s1" night ledger_100
      = (res_json (SaleJson sale), st')
    ∧ sales st' !! "s1" = Some sale
    ∧ Sale.totalAmount sale = Num 999
    ∧ Sale.profit sale = Num 5.
Proof.
  eexists _, _.
  assert (Hpost : post_sales overstated_sale "s1" night ledger_100
                  = (res_json (SaleJson
                       (Sale.mk "s1" "p1" (Num 10) (Num 3) (Num 999) (Num 5)
                          night)),
                     (post_sales overstated_sale "s1" night ledger_100).2))
    by (vm_compute; reflexivity).
  split; [exact Hpost|].
  destruct (post_sales_stores_supplied_totals _ _ _ _ _ _ Hpost)
    as (Hsale & _).
  split; [exact Hsale|]. split; reflexivity.
Defined.

(** The form of the sale page fills the two totals from the quantity,
    the price and the purchase price of the product it holds, each
    rounded to two decimals. *)
Lemma RecordSale_saleData_totals (products : list Product.t)
    (data : SaleForm.t) (selected : Product.t) :
  List.find (λ p, bool_decide (Product.id p = SaleForm.productId data))
    products = Some selected →
  SaleBody.totalAmount (RecordSale_saleData products data)
    = Text (toFixed 2
              (number_mul (or_zero (SaleForm.quantity data))
                          (or_zero (SaleForm.pricePerKg data))))
  ∧ SaleBody.profit (RecordSale_saleData products data)
      = Text (toFixed 2
                (number_sub
                   (number_mul (or_zero (SaleForm.quantity data))
                               (or_zero (SaleForm.pricePerKg data)))
                   (number_mul (or_zero (SaleForm.quantity data))
                               (Product.purchasePrice selected)))).
Proof.
  intros Hfind. unfold RecordSale_saleData. rewrite Hfind. done.
Qed.

(** Scenario A, through the form: 10 kg at 3.00 of a product bought at
    2.00 with 100 in stock. *)
Example scenario_A :
  ∃ sale st' product,
    post_sales
      (RecordSale_saleData [mung] (SaleForm.mk "p1" (Num 10) (Num 3)))
      "s1" night ledger_100 = (res_json (SaleJson sale), st')
    ∧ number_eq (Sale.totalAmount sale) (Num 30)
    ∧ number_eq (Sale.profit sale) (Num 10)
    ∧ products st' !! "p1" = Some product
    ∧ number_eq (Product.stock product) (Num 90).
Proof.
  eexists _, _, _. split; [vm_compute; reflexivity|].
  split; [vm_compute; reflexivity|].
  split; [vm_compute; reflexivity|].
  split; vm_compute; reflexivity.
Qed.





(** A fresh identifier keeps every earlier sale record in place. *)
Lemma post_sales_keeps_history (body : SaleBody.t) (uuid : string)
    (now : Date) (st : MemStorage) (k : string) (s : Sale.t) :
  sales st !! uuid = None →
  sales st !! k = Some s →
  sales (post_sales body uuid now st).2 !! k = Some s.
Proof.
  intros Hfresh Hk.
  destruct (insertSaleSchema_parse body) as [ins|] eqn:Hparse.
  - rewrite (post_sales_cases _ _ _ _ _ Hparse).
    destruct (products st !! InsertSale.productId ins) as [product|] eqn:Hp;
      [|done].
    destruct (number_lt _ _); [done|].
    rewrite (createSale_found _ _ _ _ _ Hp). simpl.
    rewrite lookup_insert_ne; [done|]. intros ->. congruence.
  - unfold post_sales. rewrite Hparse. done.
Qed.

(** No other request writes a sale record. *)
Lemma sales_written_only_by_post_sales (tzOffset : Z) (r : request)
    (st : MemStorage) :
  (∀ body uuid now, r ≠ PostSale body uuid now) →
  sales (handle tzOffset r st).2 = sales st.
Proof.
  intros Hr. destruct r as [body uuid now|body uuid now|id v|uuid now];
    simpl.
  - unfold post_products. destruct (insertProductSchema_parse body); done.
  - by destruct (Hr body uuid now).
  - unfold patch_products_stock. destruct v as [x|]; [|done].
    destruct (isNaN x); [done|].
    unfold_handlers. by destruct (products st !! id).
  - unfold_handlers. destruct (_ <? 18); [done|]. simpl.
    destruct (dailyReports st !! toISODate now); simpl;
      [destruct (dailyReports st !! toISODate now)|]; done.
Qed.



(** * Stock *)

(** C2, as stated, fails: a product is added with 90 in stock, then its
    stock is set to -110, the result of taking 200 away; the store now
    holds a stock below zero. *)
Lemma C2_counterexample :
  ¬ all_stock_nonneg
      (run (-300)
         [PostProduct mung_body "p1" night;
          PatchStock "p1" (Some (Num (-110)))]
         new_MemStorage).
Proof.
  intros Hall.
  specialize (Hall "p1"
    (Product.mk "p1" "Mung beans" (Num 2) (Num 3) (Num (-110)) night)).
  assert (Hneg : stock_nonneg
            (Product.mk "p1" "Mung beans" (Num 2) (Num 3) (Num (-110)) night))
    by (apply Hall; vm_compute; reflexivity).
  vm_compute in Hneg. apply Hneg. reflexivity.
Qed.

Lemma nonneg_number_stock (p : Product.t) (x : number) :
  nonneg_number x = true → stock_nonneg (Product.with_stock p x).
Proof. intros Hx. by apply nonneg_number_spec. Qed.

Lemma post_submit_products (tzOffset : Z) (uuid : string) (now : Date)
    (st : MemStorage) :
  products (post_reports_daily_submit tzOffset uuid now st).2 = products st.
Proof.
  unfold_handlers. destruct (_ <? 18); [done|]. simpl.
  destruct (dailyReports st !! toISODate now); simpl;
    [destruct (dailyReports st !! toISODate now)|]; done.
Qed.

(** One request keeps every stock at or above zero when what it
    supplies is acceptable. *)
Lemma handle_keeps_stock_nonneg (tzOffset : Z) (r : request)
    (st : MemStorage) :
  supplied_ok r = true →
  all_stock_nonneg st →
  all_stock_nonneg (handle tzOffset r st).2.
Proof.
  intros Hok Hall. destruct r as [body uuid now|body uuid now|id v|uuid now];
    simpl in *.
  - unfold post_products.
    destruct (insertProductSchema_parse body) as [ins|]; [|done].
    destruct (InsertProduct.stock ins) as [s|] eqn:Hs; [|discriminate].
    unfold_handlers. simpl. apply map_Forall_insert_2; [|done].
    rewrite Hs. by apply nonneg_number_spec.
  - destruct (insertSaleSchema_parse body) as [ins|] eqn:Hparse.
    + rewrite (post_sales_cases _ _ _ _ _ Hparse).
      destruct (products st !! InsertSale.productId ins) as [product|] eqn:Hp;
        [|done].
      destruct (number_lt _ _) eqn:Hlt; [done|].
      rewrite (createSale_found _ _ _ _ _ Hp). simpl.
      apply map_Forall_insert_2; [|done].
      apply number_sub_nonneg; [exact (Hall _ _ Hp)|done..].
    + unfold post_sales. rewrite Hparse. done.
  - unfold patch_products_stock. destruct v as [x|]; [|done].
    destruct (isNaN x) eqn:Hnan; [done|]. simpl in Hok.
    unfold_handlers.
    destruct (products st !! id) as [product|] eqn:Hp; [|done]. simpl.
    apply map_Forall_insert_2; [|done].
    by apply nonneg_number_stock.
  - unfold all_stock_nonneg. by rewrite post_submit_products.
Qed.

Lemma run_keeps_stock_nonneg (tzOffset : Z) (rs : list request) :
  ∀ st, forallb supplied_ok rs = true →
        all_stock_nonneg st →
        all_stock_nonneg (run tzOffset rs st).
Proof.
  induction rs as [|r rs IH]; intros st Hok Hall; [done|].
  simpl in Hok. apply andb_true_iff in Hok as [Hr Hrs].
  apply (IH _ Hrs). by apply handle_keeps_stock_nonneg.
Qed.

(** C2 (amended): in every state reached from the empty store by
    requests of which every new product supplies an initial stock that
    is a number not below zero, every stock update supplies a number
    not below zero, and every sale supplies a quantity that is a finite
    number, every product's stock is a number not below zero
    ([Infinity] counts as one). *)
Theorem stock_nonneg_when_supplied_ok (tzOffset : Z) (rs : list request) :
  forallb supplied_ok rs = true →
  all_stock_nonneg (run tzOffset rs new_MemStorage).
Proof.
  intros Hok. apply run_keeps_stock_nonneg; [done|].
  unfold all_stock_nonneg. simpl. apply map_Forall_empty.
Qed.

Lemma stock_nonneg_when_supplied_ok_witness :
  all_stock_nonneg
    (run (-300)
       [PostProduct mung_body "p1" afternoon;
        PostSale
          (SaleBody.mk (Text "p1") (Text (Num 10)) (Text (Num 3))
             (Text (Num 30)) (Text (Num 10))) "s1" afternoon;
        PatchStock "p1" (Some (Num 50));
        PostSubmit "r1" evening]
       new_MemStorage).
Proof.
  apply stock_nonneg_when_supplied_ok. vm_compute. reflexivity.
Defined.

(** C8, as stated, fails: with 90 in stock, the update that taking 200
    away amounts to (a new stock of 90 - 200) is answered with success,
    and the stock is then -110. *)
Lemma C8_counterexample :
  ∃ st' product,
    patch_products_stock "p1" (Some (number_sub (Num 90) (Num 200)))
      ledger_90
      = (res_json (Message "Stock updated successfully"), st')
    ∧ products st' !! "p1" = Some product
    ∧ number_eq (Product.stock product) (Num (-110))
    ∧ ¬ number_eq (Product.stock product) (Num 90).
Proof.
  eexists _, _. split; [vm_compute; reflexivity|].
  split; [vm_compute; reflexivity|].
  split; [vm_compute; reflexivity|].
  vm_compute. discriminate.
Qed.

(** C8 (amended): PATCH /api/products/:id/stock stores whatever number
    it is given as the new stock of an existing product, a negative one
    included, and answers success; it fails, with 400 "Valid stock
    amount is required" and the stock unchanged, only when the value is
    absent, empty or not a number. *)
Theorem patch_stock_stores_any_number (id : string) (product : Product.t)
    (st : MemStorage) :
  products st !! id = Some product →
  (∀ s : Q,
     patch_products_stock id (Some (Num s)) st
       = (res_json (Message "Stock updated successfully"),
          set_products st
            (<[id := Product.with_stock product (Num s)]> (products st))))
  ∧ patch_products_stock id None st = (InvalidStockAmount, st)
  ∧ patch_products_stock id (Some NaN) st = (InvalidStockAmount, st).
Proof.
  intros Hp. split; [|done].
  intros s. unfold patch_products_stock. rewrite isNaN_Num.
  unfold_handlers. simpl. rewrite Hp. reflexivity.
Qed.

Lemma patch_stock_stores_any_number_witness :
  patch_products_stock "p1" (Some (Num (-110))) ledger_90
    = (res_json (Message "Stock updated successfully"),
       set_products ledger_90
         (<["p1" := Product.with_stock (Product.with_stock mung (Num 90))
                      (Num (-110))]> (products ledger_90))).
Proof.
  assert (Hp : products ledger_90 !! "p1"
               = Some (Product.with_stock mung (Num 90)))
    by (vm_compute; reflexivity).
  exact (proj1 (patch_stock_stores_any_number "p1" _ ledger_90 Hp) (-110)%Q).
Defined.

(** On the page, the stock dialog refuses to take 200 from 90 and sends
    nothing; the quick adjuster sends 0 instead, and the stock becomes
    0. *)
Example stock_controls_at_90 :
  handleStockUpdate (products ledger_90 !! "p1") adj_remove (Num 200) = None
  ∧ ∃ newStock st' product,
      handleQuickAdjustment (Product.with_stock mung (Num 90)) adj_remove
        (Num 200) = Some newStock
      ∧ patch_products_stock "p1" (Some newStock) ledger_90
          = (res_json (Message "Stock updated successfully"), st')
      ∧ products st' !! "p1" = Some product
      ∧ number_eq (Product.stock product) (Num 0).
Proof.
  split; [vm_compute; reflexivity|].
  eexists _, _, _. split; [reflexivity|].
  split; [vm_compute; reflexivity|].
  split; vm_compute; reflexivity.
Qed.

(** C9, as stated, fails: on a store without the product the update is
    answered 200 "Stock updated successfully", not 404. *)
Lemma C9_counterexample :
  patch_products_stock "ghost" (Some (Num 5)) ledger_90
    = (res_json (Message "Stock updated successfully"), ledger_90)
  ∧ status (patch_products_stock "ghost" (Some (Num 5)) ledger_90).1
      ≠ status NotFound.
Proof.
  split; [vm_compute; reflexivity|]. vm_compute. discriminate.
Qed.

(** C9 (amended): for an id that resolves to no product, the stock
    update with a numeric value answers success and changes nothing. *)
Theorem patch_stock_unknown_id_is_silent (id : string) (s : Q)
    (st : MemStorage) :
  products st !! id = None →
  patch_products_stock id (Some (Num s)) st
    = (res_json (Message "Stock updated successfully"), st).
Proof.
  intros Hp. unfold patch_products_stock. rewrite isNaN_Num.
  unfold_handlers. simpl. rewrite Hp. reflexivity.
Qed.

Lemma patch_stock_unknown_id_is_silent_witness :
  patch_products_stock "ghost" (Some (Num 5)) ledger_90
    = (res_json (Message "Stock updated successfully"), ledger_90).
Proof.
  apply patch_stock_unknown_id_is_silent. vm_compute. reflexivity.
Defined.

(** * Daily reports *)

(** The handler at or after 18:00, by the report the store holds. *)
Lemma post_submit_late (tzOffset : Z) (uuid : string) (now : Date)
    (st : MemStorage) :
  (getHours tzOffset now <? 18) = false →
  post_reports_daily_submit tzOffset uuid now st =
    let '(totalSales, totalProfit, totalCost) := day_totals now st in
    match dailyReports st !! toISODate now with
    | Some report =>
        (res_json (Message "Daily report updated and submitted successfully"),
         set_dailyReports st
           (<[toISODate now :=
                DailyReport.mk (DailyReport.id report)
                  (DailyReport.date report)
                  totalSales totalProfit totalCost true
                  (if DailyReport.isSubmitted report
                   then DailyReport.submittedAt report
                   else Some now)]> (dailyReports st)))
    | None =>
        let report :=
          DailyReport.mk uuid (toISODate now) totalSales totalProfit
            totalCost true (Some now) in
        (res_json (MessageReport "Daily report submitted successfully" report),
         set_dailyReports st (<[toISODate now := report]> (dailyReports st)))
    end.
Proof.
  intros Hlate. unfold post_reports_daily_submit. rewrite Hlate.
  unfold day_totals. unfold_handlers. simpl.
  destruct (dailyReports st !! toISODate now) as [report|] eqn:Hr; simpl.
  - rewrite Hr. unfold Object_assign. simpl.
    destruct (DailyReport.isSubmitted report); reflexivity.
  - reflexivity.
Qed.

(** C5, as stated, fails: on a host west of UTC the second submission
    of one evening falls on the next UTC day.  It leaves the report of
    the day as the first submission made it, without the sale of 30.00
    recorded in between, and files a second report, with its own
    submittedAt, under the next day. *)
Lemma C5_counterexample :
  localDay 300 night_west = localDay 300 dusk_west
  ∧ localDay 300 sale_west = localDay 300 dusk_west
  ∧ 18 ≤ getHours 300 dusk_west
  ∧ 18 ≤ getHours 300 night_west
  ∧ (∃ report,
       dailyReports (run 300 evening_west ledger_100)
         !! localDay 300 dusk_west = Some report
       ∧ DailyReport.submittedAt report = Some dusk_west
       ∧ number_eq (DailyReport.totalSales report) (Num 0))
  ∧ (∃ sale,
       sales (run 300 evening_west ledger_100) !! "s1" = Some sale
       ∧ Sale.saleDate sale = sale_west
       ∧ number_eq (Sale.totalAmount sale) (Num 30))
  ∧ (∃ other,
       dailyReports (run 300 evening_west ledger_100)
         !! (localDay 300 dusk_west + 1) = Some other
       ∧ DailyReport.id other = "r2"
       ∧ DailyReport.submittedAt other = Some night_west
       ∧ number_eq (DailyReport.totalSales other) (Num 0)).
Proof.
  repeat (split; [vm_compute; (reflexivity || discriminate)|]).
  split; [|split]; eexists; (split; [vm_compute; reflexivity|]);
    vm_compute; done.
Qed.

(** C5 (amended): submit on a UTC day whose report is already
    submitted replaces the three totals by the sums of totalAmount and
    of profit over the sales of that UTC day at the time of the call,
    and their difference, each printed with two decimals, and leaves
    submittedAt as the first submission set it. *)
Theorem resubmit_keeps_submittedAt (tzOffset : Z) (uuid : string)
    (now : Date) (st : MemStorage) (report : DailyReport.t) :
  18 ≤ getHours tzOffset now →
  dailyReports st !! toISODate now = Some report →
  DailyReport.isSubmitted report = true →
  ∃ report' todaySales,
    dailyReports (post_reports_daily_submit tzOffset uuid now st).2
      !! toISODate now = Some report'
    ∧ DailyReport.submittedAt report' = DailyReport.submittedAt report
    ∧ todaySales
        ≡ₚ filter (λ sale, toISODate (Sale.saleDate sale) = toISODate now)
             (values (sales st))
    ∧ DailyReport.totalSales report'
        = toFixed 2 (sum_of Sale.totalAmount todaySales)
    ∧ DailyReport.totalProfit report'
        = toFixed 2 (sum_of Sale.profit todaySales)
    ∧ DailyReport.totalCost report'
        = toFixed 2
            (number_sub (sum_of Sale.totalAmount todaySales)
               (sum_of Sale.profit todaySales))
    ∧ DailyReport.isSubmitted report' = true
    ∧ DailyReport.id report' = DailyReport.id report
    ∧ DailyReport.date report' = DailyReport.date report.
Proof.
  intros Hhour Hr Hsub.
  rewrite post_submit_late by (apply Z.ltb_ge; exact Hhour).
  unfold day_totals, getSalesByDate. cbn [fst].
  rewrite Hr, Hsub. simpl. eexists _, _. rewrite lookup_insert_eq.
  split; [reflexivity|]. done.
Qed.

(** In Tashkent, a report submitted at 18:00 is submitted again at
    21:00, after a sale of 30.00 with a profit of 10.00: the totals
    become 30.00, 10.00 and 20.00, and submittedAt stays 18:00. *)
Lemma resubmit_keeps_submittedAt_witness :
  ∃ report',
    dailyReports (post_reports_daily_submit (-300) "r2" late
                    ledger_submitted).2 !! toISODate late = Some report'
    ∧ DailyReport.submittedAt report' = Some evening
    ∧ DailyReport.totalSales report' = Num (3000 # 100)
    ∧ DailyReport.totalProfit report' = Num (1000 # 100)
    ∧ DailyReport.totalCost report' = Num (2000 # 100)
    ∧ DailyReport.isSubmitted report' = true
    ∧ DailyReport.id report' = "r1".
Proof.
  destruct (resubmit_keeps_submittedAt (-300) "r2" late ledger_submitted
              (DailyReport.mk "r1" (toISODate evening) (Num 0) (Num 0) (Num 0)
                 true (Some evening)))
    as (report' & todaySales & Hr & Hat & Hperm & Hsales & Hprofit & Hcost
        & Hsub & Hid & _).
  - vm_compute. discriminate.
  - vm_compute. reflexivity.
  - reflexivity.
  - exists report'. split; [exact Hr|]. split; [exact Hat|].
    assert (todaySales
            = [Sale.mk "s1" "p1" (Num 10) (Num 3) (Num 30) (Num 10)
                 (evening + msPerHour)]) as ->.
    { apply Permutation_singleton_r. rewrite Hperm.
      vm_compute. reflexivity. }
    rewrite Hsales, Hprofit, Hcost.
    split; [vm_compute; reflexivity|]. split; [vm_compute; reflexivity|].
    split; [vm_compute; reflexivity|]. split; [exact Hsub|exact Hid].
Defined.

(** Two submissions of one day: whatever is sold in between, and
    whenever the second one comes, the report keeps the time of the
    first. *)
Lemma submit_twice (tzOffset : Z) (uuid1 uuid2 : string) (now1 now2 : Date)
    (st st2 : MemStorage) :
  18 ≤ getHours tzOffset now1 →
  18 ≤ getHours tzOffset now2 →
  toISODate now2 = toISODate now1 →
  dailyReports st2
    = dailyReports (post_reports_daily_submit tzOffset uuid1 now1 st).2 →
  ∃ first second,
    dailyReports st2 !! toISODate now1 = Some first
    ∧ dailyReports (post_reports_daily_submit tzOffset uuid2 now2 st2).2
        !! toISODate now1 = Some second
    ∧ DailyReport.submittedAt second = DailyReport.submittedAt first
    ∧ (DailyReport.totalSales second, DailyReport.totalProfit second,
       DailyReport.totalCost second) = day_totals now2 st2.
Proof.
  intros H1 H2 Hday Hreports.
  assert (∃ first, dailyReports st2 !! toISODate now1 = Some first
                   ∧ DailyReport.isSubmitted first = true)
    as (first & Hfirst & Hsub).
  { rewrite Hreports, post_submit_late by (apply Z.ltb_ge; exact H1).
    destruct (day_totals now1 st) as [[a b] c].
    destruct (dailyReports st !! toISODate now1); simpl;
      rewrite lookup_insert_eq; eauto. }
  exists first. rewrite post_submit_late by (apply Z.ltb_ge; exact H2).
  destruct (day_totals now2 st2) as [[a b] c]. rewrite Hday, Hfirst, Hsub.
  simpl. eexists. rewrite lookup_insert_eq. done.
Qed.

(** C6, as stated, fails: on a host eight hours west of UTC, submit at
    18:00 of the 14th succeeds, but the report it creates is that of
    the 15th, the UTC day of the call; the store holds no report for
    the 14th. *)
Lemma C6_counterexample :
  getHours 480 dusk_pacific = 18
  ∧ status (post_reports_daily_submit 480 "r1" dusk_pacific ledger_100).1
      = 200
  ∧ dailyReports (post_reports_daily_submit 480 "r1" dusk_pacific ledger_100).2
      !! localDay 480 dusk_pacific = None
  ∧ ∃ report,
      dailyReports
        (post_reports_daily_submit 480 "r1" dusk_pacific ledger_100).2
        !! (localDay 480 dusk_pacific + 1) = Some report
      ∧ DailyReport.date report = localDay 480 dusk_pacific + 1
      ∧ DailyReport.isSubmitted report = true.
Proof.
  split; [vm_compute; reflexivity|]. split; [vm_compute; reflexivity|].
  split; [vm_compute; reflexivity|].
  eexists. split; [vm_compute; reflexivity|]. split; reflexivity.
Qed.

(** At or after 18:00 on a host at or east of UTC, the UTC day is the
    day of the host. *)
Lemma evening_east_of_UTC (tzOffset : Z) (now : Date) :
  -1080 ≤ tzOffset ≤ 0 →
  18 ≤ getHours tzOffset now →
  toISODate now = localDay tzOffset now.
Proof.
  unfold getHours, toISODate, localDay, msPerHour, msPerDay.
  intros Htz Hhour. Z.to_euclidean_division_equations. lia.
Qed.

(** C6 (amended): the submit handler answers the early-submission
    failure exactly when the local hour is below 18, and then changes
    nothing; from 18 on it answers 200 and the store holds a submitted
    report for the UTC day of the call, a new one when there was none,
    the existing one updated otherwise, with the totals of the sales
    of that UTC day; the reports of other dates are untouched.  That
    day is the day of the host when the host is at or east of UTC. *)
Theorem submit_gate (tzOffset : Z) (uuid : string) (now : Date)
    (st : MemStorage) :
  ((post_reports_daily_submit tzOffset uuid now st).1 = EarlySubmission
   ↔ getHours tzOffset now < 18)
  ∧ (if getHours tzOffset now <? 18
     then (post_reports_daily_submit tzOffset uuid now st).2 = st
     else
       status (post_reports_daily_submit tzOffset uuid now st).1 = 200
       ∧ (∃ report todaySales,
            dailyReports (post_reports_daily_submit tzOffset uuid now st).2
              !! toISODate now = Some report
            ∧ DailyReport.isSubmitted report = true
            ∧ todaySales
                ≡ₚ filter (λ sale, toISODate (Sale.saleDate sale)
                                   = toISODate now) (values (sales st))
            ∧ DailyReport.totalSales report
                = toFixed 2 (sum_of Sale.totalAmount todaySales)
            ∧ DailyReport.totalProfit report
                = toFixed 2 (sum_of Sale.profit todaySales)
            ∧ DailyReport.totalCost report
                = toFixed 2
                    (number_sub (sum_of Sale.totalAmount todaySales)
                       (sum_of Sale.profit todaySales))
            ∧ match dailyReports st !! toISODate now with
              | None =>
                  DailyReport.id report = uuid
                  ∧ DailyReport.date report = toISODate now
                  ∧ DailyReport.submittedAt report = Some now
              | Some existing =>
                  DailyReport.id report = DailyReport.id existing
                  ∧ DailyReport.date report = DailyReport.date existing
              end)
       ∧ (∀ d, d ≠ toISODate now →
               dailyReports (post_reports_daily_submit tzOffset uuid now st).2
                 !! d = dailyReports st !! d))
  ∧ (-1080 ≤ tzOffset ≤ 0 → 18 ≤ getHours tzOffset now →
     toISODate now = localDay tzOffset now).
Proof.
  split; [|split; [|apply evening_east_of_UTC]].
  - destruct (getHours tzOffset now <? 18) eqn:Hh.
    + unfold post_reports_daily_submit. rewrite Hh.
      apply Z.ltb_lt in Hh. done.
    + rewrite (post_submit_late _ _ _ _ Hh). apply Z.ltb_ge in Hh.
      unfold day_totals.
      destruct (dailyReports st !! toISODate now);
        (split; [discriminate|lia]).
  - destruct (getHours tzOffset now <? 18) eqn:Hh.
    + unfold post_reports_daily_submit. by rewrite Hh.
    + rewrite (post_submit_late _ _ _ _ Hh).
      unfold day_totals, getSalesByDate. cbn [fst].
      destruct (dailyReports st !! toISODate now) as [existing|]; simpl.
      * split; [done|]. split.
        -- eexists _, _. rewrite lookup_insert_eq.
           split; [reflexivity|]. done.
        -- intros d Hd. by rewrite lookup_insert_ne.
      * split; [done|]. split.
        -- eexists _, _. rewrite lookup_insert_eq.
           split; [reflexivity|]. done.
        -- intros d Hd. by rewrite lookup_insert_ne.
Qed.

(** Scenario E in Tashkent: at 18:00 the report of the day is created,
    under the day of the host, with the totals of a day without
    sales. *)
Lemma submit_gate_witness :
  status (post_reports_daily_submit (-300) "r1" evening ledger_100).1 = 200
  ∧ ∃ report,
      dailyReports (post_reports_daily_submit (-300) "r1" evening ledger_100).2
        !! localDay (-300) evening = Some report
      ∧ DailyReport.id report = "r1"
      ∧ DailyReport.isSubmitted report = true
      ∧ DailyReport.submittedAt report = Some evening
      ∧ DailyReport.totalSales report = Num (0 # 100).
Proof.
  destruct (submit_gate (-300) "r1" evening ledger_100)
    as (_ & Hlate & Hday).
  change (getHours (-300) evening <? 18) with false in Hlate.
  destruct Hlate
    as (Hstatus & (report & todaySales & Hr & Hsub & Hperm & Hsales & _ & _
                   & Hnew) & _).
  split; [exact Hstatus|]. exists report.
  rewrite <- Hday; [|vm_compute; split; discriminate|vm_compute; discriminate].
  split; [exact Hr|].
  change (dailyReports ledger_100 !! toISODate evening)
    with (@None DailyReport.t) in Hnew.
  destruct Hnew as (Hid & _ & Hat).
  split; [exact Hid|]. split; [exact Hsub|]. split; [exact Hat|].
  assert (todaySales = []) as ->.
  { apply Permutation_nil_r. rewrite Hperm. vm_compute. reflexivity. }
  rewrite Hsales. vm_compute. reflexivity.
Defined.

(** Scenario E: 17:00 and 18:00 local time. *)
Example scenario_E :
  (post_reports_daily_submit (-300) "r1" afternoon ledger_100).1
    = EarlySubmission
  ∧ status (post_reports_daily_submit (-300) "r1" evening ledger_100).1 = 200.
Proof. split; vm_compute; reflexivity. Qed.

(** * Dashboard *)

(** The sales [getDashboardStats] sums into weeklyProfit are those of
    the eight days from today - 7 to today. *)
Lemma weeklyProfit_window (now : Date) (st : MemStorage) :
  DashboardStats.weeklyProfit (getDashboardStats now st).1
    = toFixed 2
        (sum_of Sale.profit
           (filter (λ sale, toISODate now - 7 ≤ toISODate (Sale.saleDate sale)
                            ∧ toISODate (Sale.saleDate sale) ≤ toISODate now)
              (values (sales st)))).
Proof.
  unfold_handlers. simpl. rewrite toISODate_addDays. reflexivity.
Qed.

(** C7: on a ledger whose only sale is seven days old,
    [getDashboardStats] reports its profit as weeklyProfit, where the
    seven-day window of the specification gives zero. *)
Theorem weeklyProfit_counts_sale_seven_days_old :
  toISODate (addDays night (-7)) = toISODate night - 7
  ∧ number_eq
      (DashboardStats.weeklyProfit (getDashboardStats night ledger_week_old).1)
      (Num 5)
  ∧ number_eq (trailing_window_profit night ledger_week_old) (Num 0).
Proof.
  split; [vm_compute; reflexivity|]. split; vm_compute; reflexivity.
Qed.

(** The weekly series, for its part, stops at today - 6: the same sale
    appears in none of its seven entries. *)
Example weekly_series_skips_sale_seven_days_old :
  Forall (λ e, number_eq (WeeklyEntry.profit e) (Num 0))
    (getWeeklyData (-300) night ledger_week_old).1
  ∧ length (getWeeklyData (-300) night ledger_week_old).1 = 7%nat.
Proof.
  split; [|vm_compute; reflexivity].
  vm_compute. repeat constructor.
Qed.

(** * Products *)

(** C10, as stated, fails: an empty name, a negative purchase price, a
    selling price of zero and a negative stock are accepted, and the
    product is added. *)
Lemma C10_counterexample :
  ∃ product st',
    post_products unsound_product "p9" night new_MemStorage
      = (res_json (ProductJson product), st')
    ∧ products st' !! "p9" = Some product
    ∧ Product.name product = ""
    ∧ number_eq (Product.purchasePrice product) (Num (-1))
    ∧ number_eq (Product.sellingPrice product) (Num 0)
    ∧ number_eq (Product.stock product) (Num (-5)).
Proof.
  eexists _, _. split; [vm_compute; reflexivity|].
  split; [vm_compute; reflexivity|]. vm_compute. done.
Qed.

(** C10 (amended): POST /api/products fails, with 400 "Invalid product
    data", exactly when the body lacks the shape of the insert schema (a
    name or a price that is absent or not a text, a stock that is not a
    text), and then adds nothing; every body of that shape is accepted
    whatever its values, and the product is stored under the new id
    with the name, prices and stock as supplied. *)
Theorem post_products_checks_shape_only (body : ProductBody.t)
    (uuid : string) (now : Date) (st : MemStorage) :
  ((post_products body uuid now st).1 = ValidationError_product
   ↔ well_shaped body = false)
  ∧ (if well_shaped body
     then
       ∃ product,
         post_products body uuid now st
           = (res_json (ProductJson product),
              set_products st (<[uuid := product]> (products st)))
         ∧ Product.id product = uuid
         ∧ ProductBody.name body = Text (Product.name product)
         ∧ ProductBody.purchasePrice body
             = Text (Product.purchasePrice product)
         ∧ ProductBody.sellingPrice body
             = Text (Product.sellingPrice product)
         ∧ match ProductBody.stock body with
           | Text stock => Product.stock product = stock
           | _ => Product.stock product = NaN
           end
     else (post_products body uuid now st).2 = st).
Proof.
  unfold post_products, insertProductSchema_parse, well_shaped.
  destruct body as [[| |name] [| |purchasePrice] [| |sellingPrice]
                      [| |stock]]; simpl;
    try (split; [split; done|done]);
    (split; [split; discriminate|]); eexists; done.
Qed.

(** * Listings *)

Lemma elem_of_values {K A} `{Countable K} (m : gmap K A) (x : A) :
  x ∈ values m ↔ ∃ k, m !! k = Some x.
Proof.
  unfold values. rewrite list_elem_of_fmap. split.
  - intros ([k y] & -> & Hin). exists k. by apply elem_of_map_to_list.
  - intros [k Hk]. exists (k, x). split; [done|].
    by apply elem_of_map_to_list.
Qed.

Lemma length_values {K A} `{Countable K} (m : gmap K A) :
  length (values m) = size m.
Proof. unfold values. by rewrite length_fmap, length_map_to_list. Qed.

#[local] Instance newest_product_first_total : Total newest_product_first.
Proof. intros a b. unfold newest_product_first. lia. Qed.

#[local] Instance newest_product_first_trans :
  Transitive newest_product_first.
Proof. intros a b c. unfold newest_product_first. lia. Qed.

#[local] Instance most_recent_sale_first_total :
  Total most_recent_sale_first.
Proof. intros a b. unfold most_recent_sale_first. lia. Qed.

#[local] Instance most_recent_sale_first_trans :
  Transitive most_recent_sale_first.
Proof. intros a b c. unfold most_recent_sale_first. lia. Qed.

(** X1: [getProducts] lists every product of the store exactly once,
    each one no older than all that follow it, and leaves the store as
    it is. *)
Theorem getProducts_newest_first (st : MemStorage) :
  (getProducts st).1 ≡ₚ values (products st)
  ∧ (∀ p, p ∈ (getProducts st).1 ↔ ∃ id, products st !! id = Some p)
  ∧ StronglySorted newest_product_first (getProducts st).1
  ∧ (getProducts st).2 = st.
Proof.
  unfold getProducts. simpl. split; [apply merge_sort_Permutation|].
  split.
  - intros p. rewrite merge_sort_Permutation. apply elem_of_values.
  - split; [|done]. apply StronglySorted_merge_sort; apply _.
Qed.

(** X2: [getSales] lists every sale of the store exactly once, each
    one no older than all that follow it, and leaves the store as it
    is. *)
Theorem getSales_most_recent_first (st : MemStorage) :
  (getSales st).1 ≡ₚ values (sales st)
  ∧ (∀ s, s ∈ (getSales st).1 ↔ ∃ id, sales st !! id = Some s)
  ∧ StronglySorted most_recent_sale_first (getSales st).1
  ∧ (getSales st).2 = st.
Proof.
  unfold getSales. simpl. split; [apply merge_sort_Permutation|].
  split.
  - intros s. rewrite merge_sort_Permutation. apply elem_of_values.
  - split; [|done]. apply StronglySorted_merge_sort; apply _.
Qed.

(** X3: the product count of the dashboard is the number of products
    that [getProducts] lists. *)
Theorem productCount_is_listing_length (now : Date) (st : MemStorage) :
  DashboardStats.productCount (getDashboardStats now st).1
    = length (getProducts st).1.
Proof.
  unfold getProducts. simpl. rewrite merge_sort_Permutation.
  by rewrite length_values.
Qed.

(** * Products, continued *)

(** X4: a well-shaped body under an id the store does not hold adds
    exactly one product; every product held before is still there,
    unchanged, and sales and reports are not touched. *)
Theorem post_products_adds_one (body : ProductBody.t) (uuid : string)
    (now : Date) (st : MemStorage) :
  well_shaped body = true →
  products st !! uuid = None →
  size (products (post_products body uuid now st).2)
    = S (size (products st))
  ∧ is_Some (products (post_products body uuid now st).2 !! uuid)
  ∧ (∀ k p, products st !! k = Some p →
            products (post_products body uuid now st).2 !! k = Some p)
  ∧ sales (post_products body uuid now st).2 = sales st
  ∧ dailyReports (post_products body uuid now st).2 = dailyReports st.
Proof.
  intros Hshape Hfresh.
  unfold post_products, insertProductSchema_parse, well_shaped in *.
  destruct body as [[| |name] [| |purchasePrice] [| |sellingPrice]
                      [| |stock]]; simpl in *; try discriminate;
    (split; [by apply map_size_insert_None|]);
    (split; [by rewrite lookup_insert_eq|]);
    (split; [|done]);
    intros k p Hk; (rewrite lookup_insert_ne; [done|]); intros ->;
    congruence.
Qed.

Lemma post_products_adds_one_witness :
  size (products (post_products mung_body "p2" night ledger_90).2) = 2%nat
  ∧ products (post_products mung_body "p2" night ledger_90).2 !! "p1"
      = Some (Product.with_stock mung (Num 90)).
Proof.
  destruct (post_products_adds_one mung_body "p2" night ledger_90)
    as (Hsize & _ & Hkeep & _).
  - reflexivity.
  - vm_compute. reflexivity.
  - split; [exact Hsize|]. apply Hkeep. vm_compute. reflexivity.
Defined.

(** X5: the stock update changes nothing but the stock of the product
    it names: the number of products, every other product, the other
    fields of that product, the sales and the reports stay as they
    were; it never adds a product. *)
Theorem patch_stock_changes_stock_only (id : string)
    (newStock : option number) (st : MemStorage) :
  sales (patch_products_stock id newStock st).2 = sales st
  ∧ dailyReports (patch_products_stock id newStock st).2 = dailyReports st
  ∧ size (products (patch_products_stock id newStock st).2)
      = size (products st)
  ∧ (∀ k, k ≠ id →
          products (patch_products_stock id newStock st).2 !! k
            = products st !! k)
  ∧ match products st !! id with
    | Some p =>
        ∃ q, products (patch_products_stock id newStock st).2 !! id
               = Some q
             ∧ Product.id q = Product.id p
             ∧ Product.name q = Product.name p
             ∧ Product.purchasePrice q = Product.purchasePrice p
             ∧ Product.sellingPrice q = Product.sellingPrice p
             ∧ Product.createdAt q = Product.createdAt p
    | None => products (patch_products_stock id newStock st).2 !! id = None
    end.
Proof.
  unfold patch_products_stock.
  destruct newStock as [x|]; [destruct (isNaN x)|]; simpl.
  1,3: repeat split; try done; destruct (products st !! id); eauto 10.
  unfold_handlers.
  destruct (products st !! id) as [p|] eqn:Hp; simpl; rewrite ?Hp.
  - split; [done|]. split; [done|].
    split; [by apply map_size_insert_Some|].
    split; [intros k Hk; by rewrite lookup_insert_ne|].
    eexists. rewrite lookup_insert_eq. done.
  - done.
Qed.

(** * Sales, continued *)

Ltac settle_answer :=
  intros;
  first
    [ by eauto 6
    | repeat match goal with
             | H : ∃ _, _ |- _ => destruct H
             | H : _ ∧ _ |- _ => destruct H
             end; congruence ].

(** X6: the answers of POST /api/sales, each with the condition that
    brings it: a malformed body, an unknown product, a stock below the
    quantity, and success otherwise. *)
Theorem post_sales_answers (body : SaleBody.t) (uuid : string) (now : Date)
    (st : MemStorage) :
  ((post_sales body uuid now st).1 = ValidationError_sale
   ↔ insertSaleSchema_parse body = None)
  ∧ ((post_sales body uuid now st).1 = NotFound
     ↔ ∃ ins, insertSaleSchema_parse body = Some ins
              ∧ products st !! InsertSale.productId ins = None)
  ∧ ((post_sales body uuid now st).1 = InsufficientStock
     ↔ ∃ ins p, insertSaleSchema_parse body = Some ins
                ∧ products st !! InsertSale.productId ins = Some p
                ∧ number_lt (Product.stock p) (InsertSale.quantity ins)
                  = true)
  ∧ (status (post_sales body uuid now st).1 = 200
     ↔ ∃ ins p, insertSaleSchema_parse body = Some ins
                ∧ products st !! InsertSale.productId ins = Some p
                ∧ number_lt (Product.stock p) (InsertSale.quantity ins)
                  = false).
Proof.
  destruct (insertSaleSchema_parse body) as [ins|] eqn:Hparse.
  - rewrite (post_sales_cases _ _ _ _ _ Hparse).
    destruct (products st !! InsertSale.productId ins) as [p|] eqn:Hp.
    + destruct (number_lt _ _) eqn:Hlt.
      * repeat split; try discriminate; try done; settle_answer.
      * destruct (createSale uuid now ins st) as [sale st2].
        repeat split; try discriminate; try done; settle_answer.
    + repeat split; try discriminate; try done; settle_answer.
  - unfold post_sales. rewrite Hparse. simpl.
    repeat split; try discriminate; try done; settle_answer.
Qed.

(** X7: the stock check compares numbers only.  When the stock of the
    product or the quantity asked is not a number, the sale is recorded
    and the stock of the product is left not a number. *)
Theorem post_sales_not_a_number (body : SaleBody.t) (ins : InsertSale.t)
    (p : Product.t) (uuid : string) (now : Date) (st : MemStorage) :
  insertSaleSchema_parse body = Some ins →
  products st !! InsertSale.productId ins = Some p →
  isNaN (Product.stock p) || isNaN (InsertSale.quantity ins) = true →
  status (post_sales body uuid now st).1 = 200
  ∧ is_Some (sales (post_sales body uuid now st).2 !! uuid)
  ∧ ∃ q, products (post_sales body uuid now st).2
           !! InsertSale.productId ins = Some q
         ∧ Product.stock q = NaN.
Proof.
  intros Hparse Hp Hnan.
  rewrite (post_sales_cases _ _ _ _ _ Hparse), Hp.
  assert (number_lt (Product.stock p) (InsertSale.quantity ins) = false
          ∧ number_sub (Product.stock p) (InsertSale.quantity ins) = NaN)
    as [-> Hsub].
  { unfold number_lt, number_sub.
    destruct (Product.stock p) as [|a| |], (InsertSale.quantity ins) as [|b| |];
      rewrite ?isNaN_Num in Hnan; try done; simpl;
      by destruct (to_double _). }
  rewrite (createSale_found _ _ _ _ _ Hp). simpl.
  rewrite !lookup_insert_eq. split; [done|]. split; [done|].
  eexists. split; [reflexivity|]. exact Hsub.
Qed.

Lemma post_sales_not_a_number_witness :
  ∃ q, products
         (post_sales
            (SaleBody.mk (Text "p1") (Text NaN) (Text (Num 3))
               (Text (Num 30)) (Text (Num 10))) "s1" night ledger_100).2
         !! "p1" = Some q
       ∧ Product.stock q = NaN.
Proof.
  apply (post_sales_not_a_number _
           (InsertSale.mk "p1" NaN (Num 3) (Num 30) (Num 10)) mung).
  - reflexivity.
  - vm_compute. reflexivity.
  - reflexivity.
Defined.

(** A double that is not below another is not less than it. *)
Lemma double_le_not_lt (x y : number) :
  double_le x y → parseFloat x = x → parseFloat y = y →
  number_lt y x = false.
Proof.
  unfold number_lt. intros Hle -> ->.
  destruct x as [|a| |], y as [|b| |]; try done. simpl in Hle.
  destruct (Qcompare_spec b a); try done. lra.
Qed.

(** X8: a quantity below zero passes the stock check of any stock that
    is not below zero: the sale is recorded, and the stock it leaves,
    the stock less the quantity as doubles, is not below zero and not
    below the stock before. *)
Theorem post_sales_negative_quantity (body : SaleBody.t)
    (ins : InsertSale.t) (p : Product.t) (uuid : string) (now : Date)
    (st : MemStorage) :
  insertSaleSchema_parse body = Some ins →
  products st !! InsertSale.productId ins = Some p →
  stock_nonneg p →
  number_lt (InsertSale.quantity ins) (Num 0) = true →
  status (post_sales body uuid now st).1 = 200
  ∧ is_Some (sales (post_sales body uuid now st).2 !! uuid)
  ∧ ∃ p', products (post_sales body uuid now st).2
            !! InsertSale.productId ins = Some p'
          ∧ Product.stock p'
              = number_sub (Product.stock p) (InsertSale.quantity ins)
          ∧ stock_nonneg p'
          ∧ number_lt (Product.stock p') (Product.stock p) = false.
Proof.
  intros Hparse Hp Hnonneg Hneg.
  assert (Hfacts :
    number_lt (Product.stock p) (InsertSale.quantity ins) = false
    ∧ nonneg_double
        (parseFloat
           (number_sub (Product.stock p) (InsertSale.quantity ins)))
    ∧ number_lt
        (number_sub (Product.stock p) (InsertSale.quantity ins))
        (Product.stock p) = false).
  { unfold stock_nonneg in Hnonneg.
    pose proof (parseFloat_idempotent (Product.stock p)) as Hidem.
    unfold number_lt, number_sub in *.
    change (parseFloat (Num 0)) with (Num 0) in Hneg.
    destruct (parseFloat (Product.stock p)) as [|a| |] eqn:Ha; try done;
      destruct (parseFloat (InsertSale.quantity ins)) as [|b| |] eqn:Hb;
      try done.
    assert (Hb0 : (b < 0)%Q).
    { destruct (Qcompare_spec b 0); try done. }
    simpl in Hnonneg.
    pose proof (to_double_mono a (a - b)) as Hmono.
    simpl in Hidem. rewrite Hidem in Hmono.
    rewrite parseFloat_to_double.
    split; [destruct (Qcompare_spec a b); try done; lra|].
    split; [apply to_double_nonneg; lra|].
    destruct (to_double (a - b)) as [|r| |]; simpl in Hmono;
      try done; try (exfalso; apply Hmono; lra).
    destruct (Qcompare_spec r a); try done.
    assert (a <= r)%Q by (apply Hmono; lra). lra. }
  destruct Hfacts as (Hcheck & Hstock & Hraise).
  rewrite (post_sales_cases _ _ _ _ _ Hparse), Hp, Hcheck.
  rewrite (createSale_found _ _ _ _ _ Hp). simpl.
  rewrite !lookup_insert_eq. split; [done|]. split; [done|].
  eexists. split; [reflexivity|]. done.
Qed.

(** Minus ten asked of a stock of 90 leaves 100. *)
Lemma post_sales_negative_quantity_witness :
  ∃ p', products
          (post_sales
             (SaleBody.mk (Text "p1") (Text (Num (-10))) (Text (Num 3))
                (Text (Num (-30))) (Text (Num (-10)))) "s1" night ledger_90).2
          !! "p1" = Some p'
        ∧ Product.stock p' = Num 100.
Proof.
  destruct (post_sales_negative_quantity
              (SaleBody.mk (Text "p1") (Text (Num (-10))) (Text (Num 3))
                 (Text (Num (-30))) (Text (Num (-10))))
              (InsertSale.mk "p1" (Num (-10)) (Num 3) (Num (-30)) (Num (-10)))
              (Product.with_stock mung (Num 90)) "s1" night ledger_90)
    as (_ & _ & p' & Hp' & Hstock & _).
  - reflexivity.
  - vm_compute. reflexivity.
  - vm_compute. discriminate.
  - vm_compute. reflexivity.
  - exists p'. split; [exact Hp'|]. rewrite Hstock. vm_compute. reflexivity.
Defined.

(** Minus one asked of a stock of 1e20 is recorded as well and leaves
    the stock at 1e20: the next double is 16384 away. *)
Example negative_quantity_lost_in_rounding :
  ∃ p', products
          (post_sales
             (SaleBody.mk (Text "p1") (Text (Num (-1))) (Text (Num 3))
                (Text (Num (-3))) (Text (Num (-1)))) "s1" night
             (mkStorage
                {["p1" := Product.with_stock mung (Num (inject_Z (10 ^ 20)))]}
                ∅ ∅)).2
          !! "p1" = Some p'
        ∧ Product.stock p' = Num (inject_Z (10 ^ 20)).
Proof. eexists. split; vm_compute; reflexivity. Qed.

(** The identifiers under which a run records sales. *)
Lemma handle_keeps_sale_records (tzOffset : Z) (r : request)
    (st : MemStorage) (k : string) (s : Sale.t) :
  (∀ body uuid now, r = PostSale body uuid now → sales st !! uuid = None) →
  sales st !! k = Some s →
  sales (handle tzOffset r st).2 !! k = Some s.
Proof.
  intros Hfresh Hk.
  destruct r as [body uuid now|body uuid now|id v|uuid now].
  - rewrite sales_written_only_by_post_sales; done.
  - simpl. apply post_sales_keeps_history; [|done]. by eapply Hfresh.
  - rewrite sales_written_only_by_post_sales; done.
  - rewrite sales_written_only_by_post_sales; done.
Qed.

(** ** Sale records over a run *)

Lemma handle_adds_no_other_sale (tzOffset : Z) (r : request)
    (st : MemStorage) (u : string) :
  u ∉ sale_uuids [r] →
  sales st !! u = None →
  sales (handle tzOffset r st).2 !! u = None.
Proof.
  intros Hu Hnone.
  destruct r as [body uuid now|body uuid now|id v|uuid now];
    try (rewrite sales_written_only_by_post_sales; done).
  simpl in *. apply not_elem_of_cons in Hu as [Hu _].
  destruct (insertSaleSchema_parse body) as [ins|] eqn:Hparse.
  - rewrite (post_sales_cases _ _ _ _ _ Hparse).
    destruct (products st !! InsertSale.productId ins) as [p|] eqn:Hp;
      [|done].
    destruct (number_lt _ _); [done|].
    rewrite (createSale_found _ _ _ _ _ Hp). simpl.
    by rewrite lookup_insert_ne.
  - unfold post_sales. rewrite Hparse. done.
Qed.

Lemma sale_uuids_cons (r : request) (rs : list request) :
  sale_uuids (r :: rs) = (sale_uuids [r] ++ sale_uuids rs)%list.
Proof. destruct r; reflexivity. Qed.

(** X9: over a run whose sale requests come with ids that are distinct
    and new to the store, a sale record, once stored, is never changed
    and never removed, whatever the requests are. *)
Theorem sale_records_never_change (tzOffset : Z) (rs : list request) :
  ∀ (st : MemStorage) (k : string) (s : Sale.t),
    NoDup (sale_uuids rs) →
    (∀ u, u ∈ sale_uuids rs → sales st !! u = None) →
    sales st !! k = Some s →
    sales (run tzOffset rs st) !! k = Some s.
Proof.
  induction rs as [|r rs IH]; intros st k s Hnd Hfresh Hk; [done|].
  rewrite sale_uuids_cons in Hnd, Hfresh.
  apply NoDup_app in Hnd as (_ & Hdisj & Hnd).
  simpl. apply IH; [done| |].
  - intros u Hu. apply handle_adds_no_other_sale.
    + intros Hin. by apply (Hdisj u).
    + apply Hfresh. apply elem_of_app. by right.
  - apply handle_keeps_sale_records; [|done].
    intros body uuid now ->. apply Hfresh. simpl. left.
Qed.

Lemma sale_records_never_change_witness :
  sales
    (run (-300)
       [PostSale
          (SaleBody.mk (Text "p1") (Text (Num 10)) (Text (Num 3))
             (Text (Num 30)) (Text (Num 10))) "s2" late;
        PatchStock "p1" (Some (Num 5));
        PostSubmit "r2" late]
       ledger_submitted) !! "s1"
  = Some (Sale.mk "s1" "p1" (Num 10) (Num 3) (Num 30) (Num 10)
            (evening + msPerHour)).
Proof.
  apply sale_records_never_change.
  - vm_compute. apply NoDup_singleton.
  - intros u Hu. simpl in Hu. apply list_elem_of_singleton in Hu as ->.
    vm_compute. reflexivity.
  - vm_compute. reflexivity.
Defined.

(** * Invariants of the ledger *)

Lemma is_Some_lookup_insert {A} (m : gmap string A) (i k : string) (x : A) :
  is_Some (m !! k) → is_Some (<[i := x]> m !! k).
Proof.
  intros Hk. destruct (decide (i = k)) as [->|Hne].
  - rewrite lookup_insert_eq. eauto.
  - by rewrite lookup_insert_ne.
Qed.

Lemma dailyReports_written_only_by_submit (tzOffset : Z) (r : request)
    (st : MemStorage) :
  (∀ uuid now, r ≠ PostSubmit uuid now) →
  dailyReports (handle tzOffset r st).2 = dailyReports st.
Proof.
  intros Hr. destruct r as [body uuid now|body uuid now|id v|uuid now];
    simpl.
  - unfold post_products. destruct (insertProductSchema_parse body); done.
  - destruct (insertSaleSchema_parse body) as [ins|] eqn:Hparse.
    + rewrite (post_sales_cases _ _ _ _ _ Hparse).
      destruct (products st !! InsertSale.productId ins) as [p|] eqn:Hp;
        [|done].
      destruct (number_lt _ _); [done|].
      by rewrite (createSale_found _ _ _ _ _ Hp).
    + unfold post_sales. by rewrite Hparse.
  - unfold patch_products_stock.
    destruct v as [x|]; [destruct (isNaN x)|]; simpl; try done.
    unfold_handlers. by destruct (products st !! id).
  - by destruct (Hr uuid now).
Qed.

Lemma handle_keeps_ledger_consistent (tzOffset : Z) (r : request)
    (st : MemStorage) :
  ledger_consistent st → ledger_consistent (handle tzOffset r st).2.
Proof.
  intros [Hprod Hsale].
  destruct r as [body uuid now|body uuid now|id v|uuid now]; simpl.
  - unfold post_products.
    destruct (insertProductSchema_parse body) as [ins|]; [|done].
    unfold_handlers. simpl. split.
    + by apply map_Forall_insert_2.
    + intros k s Hk. simpl. destruct (Hsale k s Hk) as [Hid Hsome].
      split; [done|]. by apply is_Some_lookup_insert.
  - destruct (insertSaleSchema_parse body) as [ins|] eqn:Hparse.
    + rewrite (post_sales_cases _ _ _ _ _ Hparse).
      destruct (products st !! InsertSale.productId ins) as [p|] eqn:Hp;
        [|done].
      destruct (number_lt _ _); [done|].
      rewrite (createSale_found _ _ _ _ _ Hp). split; simpl.
      * apply map_Forall_insert_2; [|done]. exact (Hprod _ _ Hp).
      * apply map_Forall_insert_2.
        -- simpl. split; [done|]. rewrite lookup_insert_eq. eauto.
        -- intros k s Hk. destruct (Hsale k s Hk) as [Hid Hsome].
           split; [done|]. by apply is_Some_lookup_insert.
    + unfold post_sales. by rewrite Hparse.
  - unfold patch_products_stock.
    destruct v as [x|]; [destruct (isNaN x)|]; simpl; try done.
    unfold_handlers.
    destruct (products st !! id) as [p|] eqn:Hp; [|done]. split; simpl.
    + apply map_Forall_insert_2; [|done]. exact (Hprod _ _ Hp).
    + intros k s0 Hk. destruct (Hsale k s0 Hk) as [Hid Hsome].
      split; [done|]. by apply is_Some_lookup_insert.
  - pose proof (sales_written_only_by_post_sales tzOffset
                  (PostSubmit uuid now) st) as Hsales.
    simpl in Hsales. unfold ledger_consistent.
    rewrite post_submit_products, Hsales by done. done.
Qed.

(** X11: in every store reached from the empty one, whatever the
    requests, every product and every sale sits under its own id and
    every sale names a product that the store holds. *)
Theorem reachable_ledger_consistent (tzOffset : Z) (rs : list request) :
  ledger_consistent (run tzOffset rs new_MemStorage).
Proof.
  assert (∀ st, ledger_consistent st → ledger_consistent (run tzOffset rs st))
    as Hrun.
  { induction rs as [|r rs IH]; intros st Hst; [done|].
    simpl. by apply IH, handle_keeps_ledger_consistent. }
  apply Hrun. split; apply map_Forall_empty.
Qed.

Lemma handle_keeps_reports_submitted (tzOffset : Z) (r : request)
    (st : MemStorage) :
  reports_submitted st → reports_submitted (handle tzOffset r st).2.
Proof.
  intros Hrep. unfold reports_submitted.
  destruct r as [body uuid now|body uuid now|id v|uuid now];
    try (rewrite dailyReports_written_only_by_submit; done).
  simpl. destruct (getHours tzOffset now <? 18) eqn:Hh.
  - unfold post_reports_daily_submit. by rewrite Hh.
  - rewrite (post_submit_late _ _ _ _ Hh).
    destruct (day_totals now st) as [[a b] c].
    destruct (dailyReports st !! toISODate now) as [rep|] eqn:Hr; simpl.
    + apply map_Forall_insert_2; [|done]. simpl.
      destruct (Hrep _ _ Hr) as (Hd & Hs & Ht).
      rewrite Hs. done.
    + apply map_Forall_insert_2; [|done]. simpl. eauto.
Qed.

(** X12: in every store reached from the empty one, every daily report
    sits under its own date, is submitted, and carries the time of its
    submission: the handlers never store a draft. *)
Theorem reachable_reports_submitted (tzOffset : Z) (rs : list request) :
  reports_submitted (run tzOffset rs new_MemStorage).
Proof.
  assert (∀ st, reports_submitted st → reports_submitted (run tzOffset rs st))
    as Hrun.
  { induction rs as [|r rs IH]; intros st Hst; [done|].
    simpl. by apply IH, handle_keeps_reports_submitted. }
  apply Hrun. apply map_Forall_empty.
Qed.

Lemma handle_keeps_submission (tzOffset : Z) (r : request) (st : MemStorage)
    (d : Z) (rep : DailyReport.t) :
  dailyReports st !! d = Some rep →
  DailyReport.isSubmitted rep = true →
  ∃ rep', dailyReports (handle tzOffset r st).2 !! d = Some rep'
          ∧ DailyReport.isSubmitted rep' = true
          ∧ DailyReport.submittedAt rep' = DailyReport.submittedAt rep
          ∧ DailyReport.id rep' = DailyReport.id rep
          ∧ DailyReport.date rep' = DailyReport.date rep.
Proof.
  intros Hd Hsub.
  destruct r as [body uuid now|body uuid now|id v|uuid now];
    try (rewrite dailyReports_written_only_by_submit; by eauto 8).
  simpl. destruct (getHours tzOffset now <? 18) eqn:Hh.
  - unfold post_reports_daily_submit. rewrite Hh. simpl. eauto 8.
  - rewrite (post_submit_late _ _ _ _ Hh).
    destruct (day_totals now st) as [[a b] c].
    destruct (decide (toISODate now = d)) as [->|Hne].
    + rewrite Hd, Hsub. simpl. rewrite lookup_insert_eq. eauto 8.
    + destruct (dailyReports st !! toISODate now); simpl;
        rewrite lookup_insert_ne by done; eauto 8.
Qed.

(** X13: once a report is submitted, no sequence of requests takes the
    submission back, changes its time or replaces the report: after
    any run the report of that date is still there, submitted, with
    the same submittedAt and the same id. *)
Theorem submission_is_final (tzOffset : Z) (rs : list request) :
  ∀ (st : MemStorage) (d : Z) (rep : DailyReport.t),
    dailyReports st !! d = Some rep →
    DailyReport.isSubmitted rep = true →
    ∃ rep', dailyReports (run tzOffset rs st) !! d = Some rep'
            ∧ DailyReport.isSubmitted rep' = true
            ∧ DailyReport.submittedAt rep' = DailyReport.submittedAt rep
            ∧ DailyReport.id rep' = DailyReport.id rep
            ∧ DailyReport.date rep' = DailyReport.date rep.
Proof.
  induction rs as [|r rs IH]; intros st d rep Hd Hsub; [eauto 8|].
  destruct (handle_keeps_submission tzOffset r st d rep Hd Hsub)
    as (rep1 & Hd1 & Hsub1 & Ht1 & Hid1 & Hdate1).
  destruct (IH _ d rep1 Hd1 Hsub1) as (rep2 & Hd2 & Hsub2 & Ht2 & Hid2 & Hdt2).
  exists rep2. simpl. repeat split; try done; congruence.
Qed.

Lemma submission_is_final_witness :
  ∃ rep', dailyReports
            (run (-300)
               [PostSale
                  (SaleBody.mk (Text "p1") (Text (Num 10)) (Text (Num 3))
                     (Text (Num 30)) (Text (Num 10))) "s2" late;
                PostSubmit "r2" late;
                PostSubmit "r3" night]
               ledger_submitted) !! toISODate evening = Some rep'
          ∧ DailyReport.isSubmitted rep' = true
          ∧ DailyReport.submittedAt rep' = Some evening
          ∧ DailyReport.id rep' = "r1"
          ∧ DailyReport.date rep' = toISODate evening.
Proof.
  apply (submission_is_final (-300) _ ledger_submitted (toISODate evening)
           (DailyReport.mk "r1" (toISODate evening) (Num 0) (Num 0) (Num 0)
              true (Some evening))).
  - vm_compute. reflexivity.
  - reflexivity.
Defined.

(** * Queries by date *)

(** X14: [getSalesByDateRange] returns exactly the sales of the store
    whose day lies between the two bounds, both included; it returns
    none when the bounds are in the wrong order; [getSalesByDate] is
    the range query with both bounds at the date. *)
Theorem getSalesByDateRange_selects (startDate endDate : Z)
    (st : MemStorage) :
  (∀ sale,
     sale ∈ (getSalesByDateRange startDate endDate st).1
     ↔ (∃ id, sales st !! id = Some sale)
       ∧ startDate ≤ toISODate (Sale.saleDate sale) ≤ endDate)
  ∧ (endDate < startDate → (getSalesByDateRange startDate endDate st).1 = [])
  ∧ (getSalesByDate startDate st).1
      = (getSalesByDateRange startDate startDate st).1
  ∧ (getSalesByDateRange startDate endDate st).2 = st.
Proof.
  unfold getSalesByDateRange, getSalesByDate. simpl. split.
  { intros sale. rewrite list_elem_of_filter, elem_of_values. tauto. }
  split.
  { intros Hlt. induction (values (sales st)) as [|x l IH]; [done|].
    rewrite filter_cons. destruct (decide _) as [H|H]; [lia|done]. }
  split; [|done].
  apply list_filter_iff. intros x. lia.
Qed.

(** X15: a sale that POST /api/sales has answered is found again: by
    [getSalesByDate] under the day it was made, and in the listing of
    [getSales]. *)
Theorem recorded_sale_is_listed (body : SaleBody.t) (uuid : string)
    (now : Date) (st st' : MemStorage) (sale : Sale.t) :
  post_sales body uuid now st = (res_json (SaleJson sale), st') →
  sale ∈ (getSalesByDate (toISODate now) st').1
  ∧ sale ∈ (getSales st').1
  ∧ Sale.id sale = uuid
  ∧ Sale.saleDate sale = now.
Proof.
  intros Hpost.
  destruct (insertSaleSchema_parse body) as [ins|] eqn:Hparse.
  - rewrite (post_sales_cases _ _ _ _ _ Hparse) in Hpost.
    destruct (products st !! InsertSale.productId ins) as [p|] eqn:Hp;
      [|discriminate].
    destruct (number_lt _ _); [discriminate|].
    rewrite (createSale_found _ _ _ _ _ Hp) in Hpost.
    injection Hpost as <- <-.
    unfold getSalesByDate, getSales. simpl.
    rewrite list_elem_of_filter, merge_sort_Permutation, !elem_of_values.
    simpl. repeat split; try done; exists uuid; by rewrite lookup_insert_eq.
  - unfold post_sales in Hpost. rewrite Hparse in Hpost. discriminate.
Qed.

Lemma recorded_sale_is_listed_witness :
  Sale.mk "s1" "p1" (Num 10) (Num 3) (Num 30) (Num 10) night
    ∈ (getSalesByDate (toISODate night)
         (post_sales
            (SaleBody.mk (Text "p1") (Text (Num 10)) (Text (Num 3))
               (Text (Num 30)) (Text (Num 10))) "s1" night ledger_100).2).1.
Proof.
  refine (proj1 (recorded_sale_is_listed
                   (SaleBody.mk (Text "p1") (Text (Num 10)) (Text (Num 3))
                      (Text (Num 30)) (Text (Num 10)))
                   "s1" night ledger_100 _ _ _)).
  vm_compute. reflexivity.
Defined.

(** * Dashboard, continued *)

Lemma filter_none {A} (P : A → Prop) `{∀ x, Decision (P x)} (l : list A) :
  (∀ x, x ∈ l → ¬ P x) → filter P l = [].
Proof.
  induction l as [|x l IH]; intros Hl; [done|].
  rewrite filter_cons. destruct (decide (P x)) as [HP|_].
  - destruct (Hl x); [left|done].
  - apply IH. intros y Hy. apply Hl. by right.
Qed.

(** X16: on a day without sales the dashboard shows zero for the
    profit, the sales and the cost of the day, and a margin of zero
    (no division takes place). *)
Theorem dashboard_of_a_day_without_sales (now : Date) (st : MemStorage) :
  (∀ id sale, sales st !! id = Some sale →
              toISODate (Sale.saleDate sale) ≠ toISODate now) →
  number_eq (DashboardStats.dailyProfit (getDashboardStats now st).1) (Num 0)
  ∧ number_eq (DashboardStats.dailySales (getDashboardStats now st).1)
      (Num 0)
  ∧ number_eq (DashboardStats.dailyCost (getDashboardStats now st).1)
      (Num 0)
  ∧ number_eq (DashboardStats.dailyMargin (getDashboardStats now st).1)
      (Num 0).
Proof.
  intros Hday.
  assert (Hnone : filter (λ sale, toISODate (Sale.saleDate sale)
                                  = toISODate now) (values (sales st)) = []).
  { apply filter_none. intros x Hx Heq.
    apply elem_of_values in Hx as [id Hid]. by apply (Hday id x). }
  split; [|split; [|split]];
    unfold_handlers; simpl; rewrite Hnone; vm_compute; reflexivity.
Qed.

Lemma dashboard_of_a_day_without_sales_witness :
  number_eq
    (DashboardStats.dailyProfit (getDashboardStats night ledger_week_old).1)
    (Num 0).
Proof.
  refine (proj1 (dashboard_of_a_day_without_sales night ledger_week_old _)).
  intros id sale Hsale. apply elem_of_map_to_list in Hsale.
  vm_compute in Hsale. apply list_elem_of_singleton in Hsale.
  injection Hsale as _ ->. vm_compute. discriminate.
Defined.

(** X17: the report that the submit handler stores carries the three
    figures the dashboard shows for the day at that moment. *)
Theorem submitted_report_matches_dashboard (tzOffset : Z) (uuid : string)
    (now : Date) (st : MemStorage) :
  18 ≤ getHours tzOffset now →
  ∃ report,
    dailyReports (post_reports_daily_submit tzOffset uuid now st).2
      !! toISODate now = Some report
    ∧ DailyReport.totalSales report
        = DashboardStats.dailySales (getDashboardStats now st).1
    ∧ DailyReport.totalProfit report
        = DashboardStats.dailyProfit (getDashboardStats now st).1
    ∧ DailyReport.totalCost report
        = DashboardStats.dailyCost (getDashboardStats now st).1.
Proof.
  intros Hhour.
  rewrite post_submit_late by (apply Z.ltb_ge; exact Hhour).
  unfold day_totals.
  destruct (dailyReports st !! toISODate now); simpl;
    eexists; rewrite lookup_insert_eq; done.
Qed.

Lemma submitted_report_matches_dashboard_witness :
  ∃ report,
    dailyReports (post_reports_daily_submit (-300) "r2" late
                    ledger_submitted).2 !! toISODate late = Some report
    ∧ DailyReport.totalSales report
        = DashboardStats.dailySales (getDashboardStats late ledger_submitted).1
    ∧ DailyReport.totalProfit report
        = DashboardStats.dailyProfit
            (getDashboardStats late ledger_submitted).1
    ∧ DailyReport.totalCost report
        = DashboardStats.dailyCost (getDashboardStats late ledger_submitted).1.
Proof.
  apply submitted_report_matches_dashboard. vm_compute. discriminate.
Defined.

(** * Weekly series *)

(** The seven entries, spelled out. *)
Lemma getWeeklyData_entries (tzOffset : Z) (now : Date) (st : MemStorage) :
  getWeeklyData tzOffset now st =
    (map (λ i,
            WeeklyEntry.mk (getDay tzOffset (addDays now (- i)))
              (toFixed 2
                 (sum_of Sale.profit
                    (getSalesByDate (toISODate now - i) st).1))
              (toFixed 2
                 (sum_of Sale.totalAmount
                    (getSalesByDate (toISODate now - i) st).1)))
       [6; 5; 4; 3; 2; 1; 0], st).
Proof.
  unfold getWeeklyData, weeklyLoop, weeklyEntry.
  unfold_handlers. simpl. rewrite !toISODate_addDays. reflexivity.
Qed.

(** X18: the weekly series always has exactly seven entries, and
    reading it leaves the store as it is. *)
Theorem getWeeklyData_seven_days (tzOffset : Z) (now : Date)
    (st : MemStorage) :
  length (getWeeklyData tzOffset now st).1 = 7%nat
  ∧ (getWeeklyData tzOffset now st).2 = st.
Proof.
  unfold getWeeklyData, weeklyLoop, weeklyEntry. unfold_handlers. done.
Qed.

(** X19: the newest entry of the weekly series shows for today what
    the dashboard shows as the profit and the sales of the day. *)
Theorem weekly_series_ends_with_today (tzOffset : Z) (now : Date)
    (st : MemStorage) :
  ∃ e, last (getWeeklyData tzOffset now st).1 = Some e
       ∧ WeeklyEntry.profit e
           = DashboardStats.dailyProfit (getDashboardStats now st).1
       ∧ WeeklyEntry.sales e
           = DashboardStats.dailySales (getDashboardStats now st).1.
Proof.
  rewrite getWeeklyData_entries. simpl. eexists. split; [reflexivity|].
  simpl. rewrite Z.sub_0_r. done.
Qed.

(** * The pages and the server *)

(** X21: a sale that the form sends, for a product the page holds as
    the store does, is never refused: the server records it with the
    total and the profit the form computed (quantity times price, less
    quantity times purchase price, each rounded to two decimals) and
    lowers the stock by the quantity. *)
Theorem form_sale_is_recorded (pageProducts : list Product.t)
    (data : SaleForm.t) (body : SaleBody.t) (selected : Product.t)
    (uuid : string) (now : Date) (st : MemStorage) :
  List.find (λ p, bool_decide (Product.id p = SaleForm.productId data))
    pageProducts = Some selected →
  products st !! SaleForm.productId data = Some selected →
  RecordSale_onSubmit pageProducts data = Some body →
  ∃ sale,
    (post_sales body uuid now st).1 = res_json (SaleJson sale)
    ∧ sales (post_sales body uuid now st).2 !! uuid = Some sale
    ∧ Sale.totalAmount sale
        = toFixed 2 (number_mul (or_zero (SaleForm.quantity data))
                                (or_zero (SaleForm.pricePerKg data)))
    ∧ Sale.profit sale
        = toFixed 2
            (number_sub
               (number_mul (or_zero (SaleForm.quantity data))
                           (or_zero (SaleForm.pricePerKg data)))
               (number_mul (or_zero (SaleForm.quantity data))
                           (Product.purchasePrice selected)))
    ∧ products (post_sales body uuid now st).2 !! SaleForm.productId data
        = Some (Product.with_stock selected
                  (number_sub (Product.stock selected)
                     (SaleForm.quantity data))).
Proof.
  intros Hfind Hstore Hsubmit.
  unfold RecordSale_onSubmit in Hsubmit. rewrite Hfind in Hsubmit.
  destruct (number_gt _ _) eqn:Hgt; [discriminate|].
  injection Hsubmit as <-.
  unfold RecordSale_saleData. rewrite Hfind.
  erewrite post_sales_cases by reflexivity. simpl.
  rewrite Hstore. unfold number_gt in Hgt. rewrite Hgt.
  erewrite createSale_found by exact Hstore. simpl.
  rewrite !lookup_insert_eq. eexists. done.
Qed.

(** Half a kilogram at 2.01 of a product bought at 2.00: the product
    0.5 * 2.01 is the double just below 1.005, so the form sends 1.00 as
    the total and 0.00 as the profit. *)
Lemma form_sale_is_recorded_witness :
  ∃ sale,
    (post_sales
       (RecordSale_saleData [mung]
          (SaleForm.mk "p1" (Num (5 # 10)) (Num (201 # 100))))
       "s1" night ledger_100).1 = res_json (SaleJson sale)
    ∧ Sale.totalAmount sale = Num (100 # 100)
    ∧ Sale.profit sale = Num (0 # 100).
Proof.
  destruct (form_sale_is_recorded [mung]
              (SaleForm.mk "p1" (Num (5 # 10)) (Num (201 # 100)))
              (RecordSale_saleData [mung]
                 (SaleForm.mk "p1" (Num (5 # 10)) (Num (201 # 100))))
              mung "s1" night ledger_100)
    as (sale & Hresp & _ & Htotal & Hprofit & _).
  - reflexivity.
  - vm_compute. reflexivity.
  - reflexivity.
  - exists sale. split; [exact Hresp|].
    split; [rewrite Htotal|rewrite Hprofit]; vm_compute; reflexivity.
Defined.

Lemma roundQ_nonneg (d : nat) (x : Q) : (0 <= x)%Q → (0 <= roundQ d x)%Q.
Proof.
  intros Hx. unfold roundQ.
  set (y := (x * inject_Z (10 ^ Z.of_nat d))%Q).
  assert (Hy : (0 <= y)%Q).
  { apply Qmult_le_0_compat; [done|].
    rewrite <- (Zle_Qle 0). apply Z.pow_nonneg. lia. }
  assert (Hn : 0 ≤ round_half_away y).
  { unfold round_half_away. destruct (Qle_bool 0 y) eqn:Hb.
    - rewrite <- (Qfloor_Z 0) at 1. apply Qfloor_resp_le.
      change (inject_Z 0) with 0%Q. lra.
    - apply not_true_iff_false in Hb. destruct Hb. by apply Qle_bool_iff. }
  unfold Qle. cbn [Qnum Qden]. lia.
Qed.

(** Printing with [toFixed], adding and clamping keep a number that is
    not below zero. *)
Lemma toFixed_nonneg (d : nat) (x : number) :
  nonneg_double (parseFloat x) → nonneg_double (parseFloat (toFixed d x)).
Proof.
  unfold toFixed. destruct (parseFloat x) as [|a| |]; try done.
  intros Ha. destruct (Qle_bool _ _); apply to_double_nonneg; [done|].
  by apply roundQ_nonneg.
Qed.

Lemma number_add_nonneg (x y : number) :
  nonneg_double (parseFloat x) → nonneg_double (parseFloat y) →
  nonneg_double (parseFloat (number_add x y)).
Proof.
  unfold number_add.
  destruct (parseFloat x) as [|a| |], (parseFloat y) as [|b| |]; try done.
  intros Ha Hb. apply parseFloat_nonneg, to_double_nonneg.
  simpl in *. lra.
Qed.

Lemma parseFloat_to_double_not_NaN (q : Q) : parseFloat (to_double q) ≠ NaN.
Proof.
  pose proof (to_double_not_NaN q).
  destruct (to_double q) eqn:E; try done. apply to_double_not_NaN.
Qed.

(** Taking a finite amount from a stock that is not below zero never
    gives [NaN]. *)
Lemma number_sub_not_NaN (x y : number) :
  nonneg_double (parseFloat x) → isFinite y = true →
  parseFloat (number_sub x y) ≠ NaN.
Proof.
  unfold isFinite, number_sub.
  destruct (parseFloat x) as [|a| |], (parseFloat y) as [|b| |]; try done.
  intros _ _. apply parseFloat_to_double_not_NaN.
Qed.

Lemma max_zero_nonneg (x : number) :
  parseFloat x ≠ NaN → nonneg_double (parseFloat (max_zero x)).
Proof.
  unfold max_zero. destruct (parseFloat x) as [|a| |]; try done; intros _.
  destruct (Qle_bool 0 a) eqn:Ha; apply to_double_nonneg; [|done].
  by apply Qle_bool_iff.
Qed.

Lemma number_lt_zero_false (x : number) :
  parseFloat x ≠ NaN → number_lt x (Num 0) = false →
  nonneg_double (parseFloat x).
Proof.
  unfold number_lt. change (parseFloat (Num 0)) with (Num 0).
  destruct (parseFloat x) as [|a| |]; try done.
  intros _ Hlt. apply Qcompare_not_Lt. by destruct (Qcompare a 0).
Qed.

Lemma stock_control_sends_nonneg (p : Product.t) (x : number) :
  stock_nonneg p → stock_control_sends p x → nonneg_number x = true.
Proof.
  unfold stock_nonneg. intros Hnonneg (type & a & Ha & Hfin & Hsent).
  apply nonneg_number_spec.
  assert (Hamount : nonneg_double (parseFloat (Num a)))
    by by apply to_double_nonneg.
  assert (Hadd : nonneg_double
            (parseFloat (toFixed 1 (number_add (Product.stock p) (Num a)))))
    by by apply toFixed_nonneg, number_add_nonneg.
  assert (Hclamp : nonneg_double
            (parseFloat
               (toFixed 1
                  (max_zero (number_sub (Product.stock p) (Num a))))))
    by by apply toFixed_nonneg, max_zero_nonneg, number_sub_not_NaN.
  destruct Hsent as [Hq|[Hc|Hu]].
  - unfold handleQuickAdjustment in Hq. injection Hq as <-.
    by destruct type.
  - unfold handleCustomAdjustment in Hc.
    destruct (isNaN (Num a) || number_le (Num a) (Num 0)); [discriminate|].
    injection Hc as <-. by destruct type.
  - unfold handleStockUpdate in Hu. destruct type.
    + by injection Hu as <-.
    + destruct (number_lt _ (Num 0)) eqn:Hlt; [discriminate|].
      injection Hu as <-. apply toFixed_nonneg, number_lt_zero_false; [|done].
      by apply number_sub_not_NaN.
Qed.

(** X22: whatever the three stock controls of the page send for a
    product whose stock is not below zero, with a finite amount not
    below zero, is a number not below zero: the server accepts it, and
    no stock of the store is below zero afterwards if none was
    before. *)
Theorem stock_controls_keep_stock_nonneg (id : string) (p : Product.t)
    (x : number) (st : MemStorage) :
  products st !! id = Some p →
  all_stock_nonneg st →
  stock_control_sends p x →
  nonneg_number x = true
  ∧ (patch_products_stock id (Some x) st).1
      = res_json (Message "Stock updated successfully")
  ∧ products (patch_products_stock id (Some x) st).2 !! id
      = Some (Product.with_stock p x)
  ∧ all_stock_nonneg (patch_products_stock id (Some x) st).2.
Proof.
  intros Hp Hall Hsent.
  assert (Hx : nonneg_number x = true).
  { apply (stock_control_sends_nonneg p); [|done]. exact (Hall _ _ Hp). }
  split; [done|].
  assert (Hnan : isNaN x = false).
  { unfold nonneg_number in Hx. unfold isNaN. by destruct (parseFloat x). }
  unfold patch_products_stock. rewrite Hnan.
  unfold_handlers. simpl. rewrite Hp. simpl. rewrite lookup_insert_eq.
  split; [done|]. split; [done|].
  apply map_Forall_insert_2; [|done]. by apply nonneg_number_stock.
Qed.

Lemma stock_controls_keep_stock_nonneg_witness :
  all_stock_nonneg
    (patch_products_stock "p1" (Some (toFixed 1 (max_zero (Num (90 - 200)))))
       ledger_90).2.
Proof.
  refine (proj2 (proj2 (proj2
            (stock_controls_keep_stock_nonneg "p1"
               (Product.with_stock mung (Num 90)) _ ledger_90 _ _ _)))).
  - vm_compute. reflexivity.
  - intros k q Hk. apply elem_of_map_to_list in Hk.
    vm_compute in Hk. apply list_elem_of_singleton in Hk.
    injection Hk as _ ->. vm_compute. discriminate.
  - exists adj_remove, 200%Q. split; [vm_compute; discriminate|].
    split; [vm_compute; reflexivity|]. left. vm_compute. reflexivity.
Defined.

(** * The ledger over a run, continued *)

Lemma handle_keeps_product_identity (tzOffset : Z) (r : request)
    (st : MemStorage) (k : string) (p : Product.t) :
  k ∉ product_uuids [r] →
  products st !! k = Some p →
  ∃ q, products (handle tzOffset r st).2 !! k = Some q
       ∧ Product.id q = Product.id p
       ∧ Product.name q = Product.name p
       ∧ Product.purchasePrice q = Product.purchasePrice p
       ∧ Product.sellingPrice q = Product.sellingPrice p
       ∧ Product.createdAt q = Product.createdAt p.
Proof.
  intros Hk Hp.
  destruct r as [body uuid now|body uuid now|id v|uuid now]; simpl in *.
  - apply not_elem_of_cons in Hk as [Hk _]. unfold post_products.
    destruct (insertProductSchema_parse body); simpl; [|eauto 8].
    unfold_handlers. simpl. rewrite lookup_insert_ne by done. eauto 8.
  - destruct (insertSaleSchema_parse body) as [ins|] eqn:Hparse.
    + rewrite (post_sales_cases _ _ _ _ _ Hparse).
      destruct (products st !! InsertSale.productId ins) as [p2|] eqn:Hp2;
        [|eauto 8].
      destruct (number_lt _ _); [eauto 8|].
      rewrite (createSale_found _ _ _ _ _ Hp2). simpl.
      destruct (decide (InsertSale.productId ins = k)) as [Heq|Hne].
      * rewrite Heq in *. rewrite lookup_insert_eq.
        rewrite Hp in Hp2. injection Hp2 as <-. eauto 8.
      * rewrite lookup_insert_ne by done. eauto 8.
    + unfold post_sales. rewrite Hparse. eauto 8.
  - unfold patch_products_stock.
    destruct v as [x|]; [destruct (isNaN x)|]; simpl; [eauto 8| |eauto 8].
    unfold_handlers. destruct (products st !! id) as [p2|] eqn:Hp2; simpl;
      [|eauto 8].
    destruct (decide (id = k)) as [Heq|Hne].
    + rewrite Heq in *. rewrite lookup_insert_eq.
      rewrite Hp in Hp2. injection Hp2 as <-. eauto 8.
    + rewrite lookup_insert_ne by done. eauto 8.
  - rewrite post_submit_products. eauto 8.
Qed.

Lemma product_uuids_cons (r : request) (rs : list request) :
  product_uuids (r :: rs) = (product_uuids [r] ++ product_uuids rs)%list.
Proof. destruct r; reflexivity. Qed.

(** X24: no request removes a product, and none but a new product
    under the same id changes anything of it but the stock: after any
    run that stores no product under its id, the product is still
    held, with the id, the name, the two prices and the creation time
    it had. *)
Theorem products_keep_their_identity (tzOffset : Z) (rs : list request) :
  ∀ (st : MemStorage) (k : string) (p : Product.t),
    k ∉ product_uuids rs →
    products st !! k = Some p →
    ∃ q, products (run tzOffset rs st) !! k = Some q
         ∧ Product.id q = Product.id p
         ∧ Product.name q = Product.name p
         ∧ Product.purchasePrice q = Product.purchasePrice p
         ∧ Product.sellingPrice q = Product.sellingPrice p
         ∧ Product.createdAt q = Product.createdAt p.
Proof.
  induction rs as [|r rs IH]; intros st k p Hk Hp; [eauto 8|].
  rewrite product_uuids_cons in Hk. apply not_elem_of_app in Hk as [Hr Hrs].
  destruct (handle_keeps_product_identity tzOffset r st k p Hr Hp)
    as (p1 & Hp1 & Hid1 & Hn1 & Hpp1 & Hsp1 & Hc1).
  destruct (IH _ k p1 Hrs Hp1) as (q & Hq & Hid & Hn & Hpp & Hsp & Hc).
  exists q. simpl. repeat split; try done; congruence.
Qed.

Lemma products_keep_their_identity_witness :
  ∃ q, products
         (run (-300)
            [PostProduct mung_body "p2" late;
             PostSale
               (SaleBody.mk (Text "p1") (Text (Num 10)) (Text (Num 3))
                  (Text (Num 30)) (Text (Num 10))) "s1" late;
             PatchStock "p1" (Some (Num 7))]
            ledger_100) !! "p1" = Some q
       ∧ Product.id q = "p1"
       ∧ Product.name q = "Mung beans"
       ∧ Product.purchasePrice q = Num 2
       ∧ Product.sellingPrice q = Num 3
       ∧ Product.createdAt q = 1699990000000.
Proof.
  apply (products_keep_their_identity (-300) _ ledger_100 "p1" mung).
  - apply (bool_decide_unpack _). vm_compute. exact I.
  - vm_compute. reflexivity.
Defined.

(** * The dashboard after a sale *)

(** Adding to zero reads the number. *)
Lemma number_add_0_l (x : number) : number_add (Num 0) x = parseFloat x.
Proof.
  unfold number_add. change (parseFloat (Num 0)) with (Num 0).
  pose proof (parseFloat_idempotent x) as Hidem.
  destruct (parseFloat x) as [|b| |]; try done.
  rewrite (to_double_comp (0 + b) b) by ring. exact Hidem.
Qed.

Lemma toFixed_parseFloat (d : nat) (x : number) :
  toFixed d (parseFloat x) = toFixed d x.
Proof. unfold toFixed. by rewrite parseFloat_idempotent. Qed.

Lemma number_sub_parseFloat (x y : number) :
  number_sub (parseFloat x) (parseFloat y) = number_sub x y.
Proof. unfold number_sub. by rewrite !parseFloat_idempotent. Qed.

(** The values of a map after a write: the value written, and the
    values under the other keys. *)
Lemma values_insert {A} (m : gmap string A) (k : string) (x : A) :
  values (<[k := x]> m) ≡ₚ x :: values (delete k m).
Proof.
  unfold values. rewrite <- insert_delete_eq.
  rewrite map_to_list_insert by apply lookup_delete_eq. done.
Qed.

(** X25: the first sale of a day shows on the dashboard of the same
    moment as it was sent: the sales and the profit of the day are its
    totalAmount and its profit, read as doubles and printed with two
    decimals, the cost of the day is their difference, and the product
    count stays. *)
Theorem recorded_sale_shows_on_dashboard (body : SaleBody.t)
    (uuid : string) (now : Date) (st st' : MemStorage) (sale : Sale.t) :
  post_sales body uuid now st = (res_json (SaleJson sale), st') →
  (∀ id s, sales st !! id = Some s →
           toISODate (Sale.saleDate s) ≠ toISODate now) →
  DashboardStats.dailySales (getDashboardStats now st').1
    = toFixed 2 (Sale.totalAmount sale)
  ∧ DashboardStats.dailyProfit (getDashboardStats now st').1
      = toFixed 2 (Sale.profit sale)
  ∧ DashboardStats.dailyCost (getDashboardStats now st').1
      = toFixed 2 (number_sub (Sale.totalAmount sale) (Sale.profit sale))
  ∧ DashboardStats.productCount (getDashboardStats now st').1
      = DashboardStats.productCount (getDashboardStats now st).1.
Proof.
  intros Hpost Hfirst.
  destruct (insertSaleSchema_parse body) as [ins|] eqn:Hparse;
    [|unfold post_sales in Hpost; rewrite Hparse in Hpost; discriminate].
  rewrite (post_sales_cases _ _ _ _ _ Hparse) in Hpost.
  destruct (products st !! InsertSale.productId ins) as [p|] eqn:Hp;
    [|discriminate].
  destruct (number_lt _ _); [discriminate|].
  rewrite (createSale_found _ _ _ _ _ Hp) in Hpost.
  injection Hpost as Hsale <-.
  assert (Htoday :
    filter (λ s, toISODate (Sale.saleDate s) = toISODate now)
      (values (<[uuid := sale]> (sales st))) = [sale]).
  { apply Permutation_singleton_r.
    rewrite (filter_Permutation _ _ _ (values_insert _ _ _)).
    rewrite filter_cons, decide_True by (by rewrite <- Hsale).
    rewrite filter_none; [done|].
    intros x Hx. apply elem_of_values in Hx as [id Hid].
    apply lookup_delete_Some in Hid as [_ Hid]. by apply (Hfirst id x). }
  unfold_handlers. simpl. rewrite Hsale, Htoday.
  unfold sum_of. cbn [foldl].
  rewrite !number_add_0_l, !toFixed_parseFloat, number_sub_parseFloat.
  repeat (split; [done|]). by apply map_size_insert_Some.
Qed.

(** Ten kilograms at 3.00 with a profit of 10.00, sold first on the
    day: the dashboard shows 30.00 as the sales of the day. *)
Lemma recorded_sale_shows_on_dashboard_witness :
  DashboardStats.dailySales
    (getDashboardStats night
       (post_sales ten_sale "s1" night ledger_100).2).1
  = Num (3000 # 100).
Proof.
  refine (eq_trans
            (proj1 (recorded_sale_shows_on_dashboard ten_sale "s1" night
                      ledger_100 _
                      (Sale.mk "s1" "p1" (Num 10) (Num 3) (Num 30) (Num 10)
                         night) _ _)) _).
  - vm_compute. reflexivity.
  - intros id s Hs. vm_compute in Hs. discriminate.
  - vm_compute. reflexivity.
Defined.

(** A sale of 90000000000000.01 shows as 90000000000000.02: the double
    nearest to the amount is 90000000000000.015625. *)
Example large_amount_on_dashboard :
  DashboardStats.dailySales
    (getDashboardStats night
       (post_sales
          (SaleBody.mk (Text "p1") (Text (Num 1)) (Text (Num 3))
             (Text (Num (9000000000000001 # 100))) (Text (Num 1)))
          "s1" night ledger_100).2).1
  = Num (9000000000000002 # 100).
Proof. vm_compute. reflexivity. Qed.
